(** * tiny-genbi web UI: the streaming ask handler of [QueryInterface.jsx]

    A shallow embedding of the component's [handleAsk] (the reader loop over
    the server-sent event stream, the line splitter, the duck-typed payload
    dispatch and the React state it updates), of [saveToKnowledgeBase], and of
    the conditional blocks of the render function, followed by the
    properties of the streaming-result consumer.

    JavaScript data is modelled as it is at run time: strings are sequences of
    UTF-16 code units, numbers are binary64 floats, objects are finite maps
    from property names to values, and [undefined] and [null] are values.
    The two library functions the handler calls on data, [JSON.parse] and the
    decimal text of a number, are parameters of the development; the UTF-8
    [TextDecoder] is written out, since the reader loop depends on the state
    it keeps between two reads. State setters are applied in the order the
    handler calls them. *)

From Stdlib Require Import PrimFloat Ascii String.
From Stdlib.Strings Require Import Byte.
From stdpp Require Import gmap strings list fin_maps pretty.

Set Warnings "-register-all,-inexact-float".
Local Open Scope N_scope.

(** ** JavaScript strings *)

(** A string literal of the source (ASCII only) as code units. *)
Definition lit (s : string) : list N :=
  N_of_ascii <$> list_ascii_of_string s.

(** ECMAScript WhiteSpace and LineTerminator code units, as [String.prototype.trim]
    strips them. *)
Definition is_js_space (c : N) : bool :=
  (c =? 9) || (c =? 10) || (c =? 11) || (c =? 12) || (c =? 13) || (c =? 32)
  || (c =? 160) || (c =? 5760) || ((8192 <=? c) && (c <=? 8202))
  || (c =? 8232) || (c =? 8233) || (c =? 8239) || (c =? 8287)
  || (c =? 12288) || (c =? 65279).

Fixpoint trim_start (s : list N) : list N :=
  match s with
  | c :: s' => if is_js_space c then trim_start s' else s
  | [] => []
  end.

(** [s.trim()] *)
Definition trim (s : list N) : list N :=
  rev (trim_start (rev (trim_start s))).

(** [s.startsWith(p)] *)
Fixpoint startsWith (p s : list N) : bool :=
  match p, s with
  | [], _ => true
  | a :: p', b :: s' => (a =? b) && startsWith p' s'
  | _ :: _, [] => false
  end.

(** [s.substring(n)] for [n] within the string or past its end. *)
Definition substring (n : nat) (s : list N) : list N := drop n s.

(** [s.includes(p)] on strings. *)
Fixpoint str_includes (p s : list N) : bool :=
  startsWith p s ||
  match s with
  | [] => false
  | _ :: s' => str_includes p s'
  end.

(** [s.split('\n')]: never empty, the last element is the text after the last
    line feed. *)
Fixpoint split_lines (s : list N) : list (list N) :=
  match s with
  | [] => [[]]
  | c :: s' =>
      if c =? 10 then [] :: split_lines s'
      else match split_lines s' with
           | l :: ls => (c :: l) :: ls
           | [] => [[c]]
           end
  end.

(** [lines.pop()] leaves the array without its last element ... *)
Definition pop_rest (ls : list (list N)) : list (list N) := removelast ls.

(** ... and returns that element ([undefined] on an empty array, which
    [|| ''] turns into the empty string, as it does the empty string). *)
Definition pop_last (ls : list (list N)) : list N := List.last ls [].

(** ** JavaScript values *)

Inductive value :=
| VUndef
| VNull
| VBool (b : bool)
| VNum (f : float)
| VStr (s : list N)
| VArr (l : list value)
| VObj (m : gmap string value).

(** ToBoolean *)
Definition truthy (v : value) : bool :=
  match v with
  | VUndef | VNull => false
  | VBool b => b
  | VNum f => negb (PrimFloat.is_zero f || PrimFloat.is_nan f)
  | VStr s => negb (bool_decide (s = []))
  | VArr _ | VObj _ => true
  end.

(** [a || b] *)
Definition js_or (a b : value) : value := if truthy a then a else b.

(** [v !== undefined] *)
Definition is_defined (v : value) : bool :=
  match v with VUndef => false | _ => true end.

(** [v.k] and [v?.k] for the property
    names this component reads ([step], [message], [chunk], [reasoning], [sql],
    [attempts], [explanation], [natural_language_answer], [row_count],
    [auto_fixed], [fix_attempts], [error], [query_id], [metadata], [question],
    [sql_explanation], [data], [detail]): none of them is a property of a
    string, number, boolean or array, so only an object can have one. On
    [null] and [undefined] this is the value of [v?.k]; the plain [v.k]
    throws there, which the callers test with [nullish] first. *)
Definition get (v : value) (k : string) : value :=
  match v with
  | VObj m => default VUndef (m !! k)
  | _ => VUndef
  end.

(** Whether reading a property of [v] throws a TypeError. *)
Definition nullish (v : value) : bool :=
  match v with VUndef | VNull => true | _ => false end.

(** The own enumerable properties copied by object spread [{...v}]. *)
Definition indexed {A} (f : A → value) (l : list A) : gmap string value :=
  list_to_map (imap (fun i x => (pretty i, f x)) l).

Definition spread (v : value) : gmap string value :=
  match v with
  | VObj m => m
  | VStr s => indexed (fun c => VStr [c]) s
  | VArr l => indexed id l
  | VUndef | VNull | VBool _ | VNum _ => ∅
  end.

(** [m.includes('error')] where [m] is truthy: substring search on a string,
    element search on an array, a TypeError ([None]) on anything else, which
    has no callable [includes]. *)
Definition includes_error (m : value) : option bool :=
  match m with
  | VStr s => Some (str_includes (lit "error") s)
  | VArr l =>
      Some (existsb (fun e => match e with
                              | VStr s => bool_decide (s = lit "error")
                              | _ => false
                              end) l)
  | _ => None
  end.

(** ** The UTF-8 [TextDecoder], used as [decoder.decode(value, {stream: true})]

    The decoder of the WHATWG Encoding standard, one byte at a time: the
    state it keeps between bytes is also what it keeps between two calls with
    [stream: true], so a character split across two reads is completed by the
    next one. Errors are replaced by U+FFFD, a leading byte order mark is
    dropped, and code points above U+FFFF are written as surrogate pairs. The
    component never calls [decode] without [stream], so an unfinished
    character at the end of the body is never flushed. *)

Record utf8_decoder := {
  code_point : N;
  bytes_seen : N;
  bytes_needed : N;
  lower_boundary : N;
  upper_boundary : N;
  bom_seen : bool
}.

Definition new_TextDecoder : utf8_decoder :=
  {| code_point := 0; bytes_seen := 0; bytes_needed := 0;
     lower_boundary := 128; upper_boundary := 191; bom_seen := false |}.

Definition utf8_reset (d : utf8_decoder) : utf8_decoder :=
  {| code_point := 0; bytes_seen := 0; bytes_needed := 0;
     lower_boundary := 128; upper_boundary := 191; bom_seen := bom_seen d |}.

Definition utf8_expect (d : utf8_decoder) (cp needed lo hi : N) : utf8_decoder :=
  {| code_point := cp; bytes_seen := 0; bytes_needed := needed;
     lower_boundary := lo; upper_boundary := hi; bom_seen := bom_seen d |}.

(** A byte read while no character is in progress. *)
Definition utf8_lead (d : utf8_decoder) (b : N) : utf8_decoder * list N :=
  if b <=? 127 then (d, [b])
  else if (194 <=? b) && (b <=? 223) then
    (utf8_expect d (N.land b 31) 1 128 191, [])
  else if (224 <=? b) && (b <=? 239) then
    (utf8_expect d (N.land b 15) 2
       (if b =? 224 then 160 else 128) (if b =? 237 then 159 else 191), [])
  else if (240 <=? b) && (b <=? 244) then
    (utf8_expect d (N.land b 7) 3
       (if b =? 240 then 144 else 128) (if b =? 244 then 143 else 191), [])
  else (d, [65533]).

(** One byte through the decoder: the new state and the code points it
    completes (an ill-placed byte both ends the character in progress with
    U+FFFD and is read again as a leading byte). *)
Definition utf8_handler (d : utf8_decoder) (b : N) : utf8_decoder * list N :=
  if bytes_needed d =? 0 then utf8_lead d b
  else if negb ((lower_boundary d <=? b) && (b <=? upper_boundary d)) then
    let '(d', out) := utf8_lead (utf8_reset d) b in (d', 65533 :: out)
  else
    let cp := N.lor (N.shiftl (code_point d) 6) (N.land b 63) in
    if bytes_seen d + 1 =? bytes_needed d then (utf8_reset d, [cp])
    else ({| code_point := cp; bytes_seen := bytes_seen d + 1;
             bytes_needed := bytes_needed d;
             lower_boundary := 128; upper_boundary := 191;
             bom_seen := bom_seen d |}, []).

(** A code point as UTF-16 code units. *)
Definition utf16_units (cp : N) : list N :=
  if cp <? 65536 then [cp]
  else [55296 + N.shiftr (cp - 65536) 10; 56320 + N.land (cp - 65536) 1023].

(** The code points leave the decoder as code units; the first one of the
    stream is dropped when it is the byte order mark. *)
Fixpoint utf8_output (d : utf8_decoder) (cps : list N) : utf8_decoder * list N :=
  match cps with
  | [] => (d, [])
  | cp :: cps' =>
      let d1 := {| code_point := code_point d; bytes_seen := bytes_seen d;
                   bytes_needed := bytes_needed d;
                   lower_boundary := lower_boundary d;
                   upper_boundary := upper_boundary d; bom_seen := true |} in
      let '(d2, out) := utf8_output d1 cps' in
      if negb (bom_seen d) && (cp =? 65279) then (d2, out)
      else (d2, utf16_units cp ++ out)
  end.

Definition decode_byte (d : utf8_decoder) (b : byte) : utf8_decoder * list N :=
  let '(d1, cps) := utf8_handler d (Byte.to_N b) in utf8_output d1 cps.

(** [decoder.decode(value, {stream: true})] *)
Fixpoint decode (d : utf8_decoder) (chunk : list byte) : utf8_decoder * list N :=
  match chunk with
  | [] => (d, [])
  | b :: chunk' =>
      let '(d1, out1) := decode_byte d b in
      let '(d2, out2) := decode d1 chunk' in
      (d2, out1 ++ out2)
  end.

(** ** The component's state *)

Inductive tab := TabReasoning | TabSql | TabExplanation.

(** The [useState] cells that [handleAsk], [saveToKnowledgeBase] and the
    three conditional blocks of the render function read or write, and
    whether React has unmounted the component after an error in one of its
    state updaters (the state cells are then no longer rendered). What React
    makes of the values it renders is not part of the model. *)
Record ui_state := {
  question : list N;
  databaseId : list N;
  loading : bool;
  result : value;
  error : value;
  savingToKB : bool;
  kbMessage : value;
  streamingReasoning : value;
  currentStep : value;
  isStreaming : bool;
  activeTab : tab;
  unmounted : bool
}.

Definition setLoading (b : bool) (st : ui_state) : ui_state :=
  {| question := question st; databaseId := databaseId st; loading := b;
     result := result st; error := error st; savingToKB := savingToKB st;
     kbMessage := kbMessage st; streamingReasoning := streamingReasoning st;
     currentStep := currentStep st; isStreaming := isStreaming st;
     activeTab := activeTab st; unmounted := unmounted st |}.

Definition setResult (v : value) (st : ui_state) : ui_state :=
  {| question := question st; databaseId := databaseId st; loading := loading st;
     result := v; error := error st; savingToKB := savingToKB st;
     kbMessage := kbMessage st; streamingReasoning := streamingReasoning st;
     currentStep := currentStep st; isStreaming := isStreaming st;
     activeTab := activeTab st; unmounted := unmounted st |}.

Definition setError (v : value) (st : ui_state) : ui_state :=
  {| question := question st; databaseId := databaseId st; loading := loading st;
     result := result st; error := v; savingToKB := savingToKB st;
     kbMessage := kbMessage st; streamingReasoning := streamingReasoning st;
     currentStep := currentStep st; isStreaming := isStreaming st;
     activeTab := activeTab st; unmounted := unmounted st |}.

Definition setSavingToKB (b : bool) (st : ui_state) : ui_state :=
  {| question := question st; databaseId := databaseId st; loading := loading st;
     result := result st; error := error st; savingToKB := b;
     kbMessage := kbMessage st; streamingReasoning := streamingReasoning st;
     currentStep := currentStep st; isStreaming := isStreaming st;
     activeTab := activeTab st; unmounted := unmounted st |}.

Definition setKbMessage (v : value) (st : ui_state) : ui_state :=
  {| question := question st; databaseId := databaseId st; loading := loading st;
     result := result st; error := error st; savingToKB := savingToKB st;
     kbMessage := v; streamingReasoning := streamingReasoning st;
     currentStep := currentStep st; isStreaming := isStreaming st;
     activeTab := activeTab st; unmounted := unmounted st |}.

Definition setStreamingReasoning (v : value) (st : ui_state) : ui_state :=
  {| question := question st; databaseId := databaseId st; loading := loading st;
     result := result st; error := error st; savingToKB := savingToKB st;
     kbMessage := kbMessage st; streamingReasoning := v;
     currentStep := currentStep st; isStreaming := isStreaming st;
     activeTab := activeTab st; unmounted := unmounted st |}.

Definition setCurrentStep (v : value) (st : ui_state) : ui_state :=
  {| question := question st; databaseId := databaseId st; loading := loading st;
     result := result st; error := error st; savingToKB := savingToKB st;
     kbMessage := kbMessage st; streamingReasoning := streamingReasoning st;
     currentStep := v; isStreaming := isStreaming st;
     activeTab := activeTab st; unmounted := unmounted st |}.

Definition setIsStreaming (b : bool) (st : ui_state) : ui_state :=
  {| question := question st; databaseId := databaseId st; loading := loading st;
     result := result st; error := error st; savingToKB := savingToKB st;
     kbMessage := kbMessage st; streamingReasoning := streamingReasoning st;
     currentStep := currentStep st; isStreaming := b;
     activeTab := activeTab st; unmounted := unmounted st |}.

Definition setActiveTab (t : tab) (st : ui_state) : ui_state :=
  {| question := question st; databaseId := databaseId st; loading := loading st;
     result := result st; error := error st; savingToKB := savingToKB st;
     kbMessage := kbMessage st; streamingReasoning := streamingReasoning st;
     currentStep := currentStep st; isStreaming := isStreaming st;
     activeTab := t; unmounted := unmounted st |}.

(** React takes the component down: a state updater threw while React
    applied it, and nothing above the component catches the error. *)
Definition unmount (st : ui_state) : ui_state :=
  {| question := question st; databaseId := databaseId st; loading := loading st;
     result := result st; error := error st; savingToKB := savingToKB st;
     kbMessage := kbMessage st; streamingReasoning := streamingReasoning st;
     currentStep := currentStep st; isStreaming := isStreaming st;
     activeTab := activeTab st; unmounted := true |}.

(** An [Error] object as the handlers read it: [err.response] and
    [err.message]. *)
Record js_error := { err_response : value; err_message : value }.

(** How a body stream ends: [reader.read()] resolves with [done], or rejects. *)
Inductive stream_end := ReadDone | ReadRejected (err : js_error).

(** What [fetch] gives [handleAsk]: a rejection, or a response with its [ok]
    flag, its status, and the chunks its body reader delivers. *)
Inductive fetch_outcome :=
| FetchRejected (err : js_error)
| FetchResponse (ok : bool) (status : float) (body : list (list byte))
    (ending : stream_end).

(** What [axios.post] gives [saveToKnowledgeBase]. *)
Inductive post_outcome := PostResolved | PostRejected (err : js_error).

Record request := { req_url : list N; req_body : value }.

(** The branches of the payload dispatch, in no particular order here. *)
Inductive branch :=
| BStep | BChunk | BReasoning | BSql | BAttempts | BExplanation | BAnswer
| BRowCount | BError | BQueryId | BMessage.

#[local] Instance branch_eq_dec : EqDecision branch.
Proof. solve_decision. Defined.

(** The local variables of the reader loop of [handleAsk], with the state
    cells the loop body updates. *)
Record reader := {
  buffer : list N;
  decoder : utf8_decoder;
  currentEvent : value;
  ui : ui_state
}.

(** The markers in front of the source's three notice texts, as the code
    units the source file holds. *)
Definition mark_ok : list N := [8218; 250; 214].
Definition mark_failed : list N := [8218; 249; 229].

(** The property each branch of the dispatch tests. *)
Definition branch_field (b : branch) : string :=
  match b with
  | BStep => "step"
  | BChunk => "chunk"
  | BReasoning => "reasoning"
  | BSql => "sql"
  | BAttempts => "attempts"
  | BExplanation => "explanation"
  | BAnswer => "natural_language_answer"
  | BRowCount => "row_count"
  | BError => "error"
  | BQueryId => "query_id"
  | BMessage => "message"
  end.

(** ** What the render function exposes *)

(** [{error && <div className="alert alert-error">...}] *)
Definition shows_error (st : ui_state) : bool := truthy (error st).

(** [{isStreaming && currentStep && <div className="streaming-container">...}] *)
Definition shows_current_step (st : ui_state) : bool :=
  isStreaming st && truthy (currentStep st).

(** [{(result || isStreaming) && <div className="results">...}] *)
Definition shows_results (st : ui_state) : bool :=
  truthy (result st) || isStreaming st.

(** The Save to KB button, inside the results panel:
    [{result?.sql ? ... {result?.execution_result?.success && <button ...
    onClick={saveToKnowledgeBase}>} ...}] *)
Definition shows_save_button (st : ui_state) : bool :=
  shows_results st && truthy (get (result st) "sql")
  && truthy (get (get (result st) "execution_result") "success").

(** The accumulated record is [null] or an object. *)
Definition result_shape (st : ui_state) : Prop :=
  result st = VNull ∨ ∃ m, result st = VObj m.

(** While an ask is streaming, the record is [null] or an object and has no
    question; an error, once shown, has ended the streaming display. *)
Definition streaming_inv (st : ui_state) : Prop :=
  result_shape st
  ∧ (isStreaming st = true → truthy (get (result st) "question") = false)
  ∧ (truthy (error st) = true → isStreaming st = false).

(** ** The precedence of the specification's Payload Classifier

    Section 4.2 of the specification orders the tests differently, and by
    presence of the field; it is written down here only to be compared with
    [dispatch_order]. *)
Definition spec_order : list branch :=
  [BQueryId; BError; BRowCount; BAttempts; BExplanation; BAnswer; BSql;
   BReasoning; BChunk; BStep; BMessage].

Definition spec_select (data : value) : option branch :=
  List.find
    (fun b =>
       match b with
       | BMessage =>
           is_defined (get data "message")
           && bool_decide (includes_error (get data "message") = Some true)
       | _ => is_defined (get data (branch_field b))
       end) spec_order.

(** ** Concrete payloads and streams for the examples *)

(** JSON text typed with ['] where the text has double quotes. *)
Definition jq (s : string) : list N :=
  (fun c => if c =? 39 then 34 else c) <$> lit s.

(** The same for the bytes of a chunk. *)
Definition jb (s : string) : list byte :=
  (fun b => match b with x27 => x22 | _ => b end) <$> list_byte_of_string s.

Definition str (s : string) : value := VStr (lit s).

Definition obj (fields : list (string * value)) : value :=
  VObj (list_to_map fields).

(** [JSON.parse] on the payload texts of the examples; any other text is
    taken to be unparseable. *)
Definition example_parse (text : list N) : option value :=
  snd <$> List.find (fun p => bool_decide (p.1 = text))
    [ (jq "{'step':'parsing'}", obj [("step", str "parsing")]);
      (jq "{'step':'run','error':'boom'}",
        obj [("step", str "run"); ("error", str "boom")]);
      (jq "{'chunk':'A'}", obj [("chunk", str "A")]);
      (jq "{'chunk':'caf" ++ [233] ++ jq "'}",
        obj [("chunk", VStr (lit "caf" ++ [233]))]);
      (jq "{'sql':'SELECT 1'}", obj [("sql", str "SELECT 1")]);
      (jq "{'attempts':2,'sql':'SELECT 1 FIX'}",
        obj [("attempts", VNum 2); ("sql", str "SELECT 1 FIX")]);
      (jq "{'attempts':2}", obj [("attempts", VNum 2)]);
      (jq "{'row_count':10,'execution_time_ms':12.4}",
        obj [("row_count", VNum 10); ("execution_time_ms", VNum 12.4)]);
      (jq "{'error':'syntax error'}", obj [("error", str "syntax error")]);
      (jq "{'query_id':'q-1','question':'top 10 customers','execution_result':{'success':true}}",
        obj [("query_id", str "q-1"); ("question", str "top 10 customers");
             ("execution_result", obj [("success", VBool true)])]);
      (jq "{'query_id':'q-1','execution_result':{'success':true}}",
        obj [("query_id", str "q-1");
             ("execution_result", obj [("success", VBool true)])]);
      (jq "{'query_id':'q-1'}", obj [("query_id", str "q-1")]) ].

(** Number::toString on the numbers of the examples. *)
Definition example_Number_toString (f : float) : list N :=
  if (f =? 2)%float then lit "2"
  else if (f =? 10)%float then lit "10"
  else if (f =? 12.4)%float then lit "12.4"
  else if (f =? 200)%float then lit "200"
  else [].

(** A freshly mounted component with both inputs filled in. *)
Definition ready : ui_state :=
  {| question := lit "top 10 customers"; databaseId := lit "db1";
     loading := false; result := VNull; error := VNull; savingToKB := false;
     kbMessage := VNull; streamingReasoning := VStr []; currentStep := VStr [];
     isStreaming := false; activeTab := TabReasoning; unmounted := false |}.

(** A body given as the texts of its chunks, ending normally. *)
Definition ok_body (chunks : list (list byte)) : fetch_outcome :=
  FetchResponse true 200 chunks ReadDone.

(** [apiConfig.baseUrl] in the examples. *)
Definition example_baseUrl : list N := lit "http://localhost:5556".

(** One frame of the stream: a data line and the blank line after it. *)
Definition frame (s : string) : list byte := jb s ++ [x0a; x0a].

Definition payload_query_id : value := obj [("query_id", str "q-1")].


Definition payload_row_count : value :=
  obj [("row_count", VNum 10); ("execution_time_ms", VNum 12.4)].

Definition frame_sql : list byte := frame "data:{'sql':'SELECT 1'}".
Definition frame_fixed : list byte :=
  frame "data:{'attempts':2,'sql':'SELECT 1 FIX'}".
Definition frame_row_count : list byte :=
  frame "data:{'row_count':10,'execution_time_ms':12.4}".
Definition frame_error : list byte := frame "data:{'error':'syntax error'}".
Definition frame_query_id : list byte := frame "data:{'query_id':'q-1'}".
Definition frame_complete : list byte :=
  frame "data:{'query_id':'q-1','question':'top 10 customers','execution_result':{'success':true}}".
Definition frame_complete_no_question : list byte :=
  frame "data:{'query_id':'q-1','execution_result':{'success':true}}".

(** ** More of the component, for the further properties *)

(** The text of the reasoning tab: [{result?.reasoning || streamingReasoning}] *)
Definition shown_reasoning (st : ui_state) : value :=
  js_or (get (result st) "reasoning") (streamingReasoning st).

(** The outcomes of [fetch] that end in the [catch] block of [handleAsk]. *)
Definition transport_failed (resp : fetch_outcome) : bool :=
  match resp with
  | FetchRejected _ => true
  | FetchResponse ok _ _ ending =>
      negb ok || match ending with ReadDone => false | ReadRejected _ => true end
  end.

(** The properties the record gets from the frames of a stream before its
    complete result. *)
Definition streamed_keys : gset string :=
  {[ "sql"; "metadata"; "sql_explanation"; "natural_language_answer" ]}%string.

(** Every code unit of a text is white space. *)
Definition all_space (s : list N) : bool := forallb is_js_space s.

(** What [axios.get] gives [fetchDatabases]: the response object, or a
    rejection. *)
Inductive get_outcome := GetResolved (response : value) | GetRejected.

(** [fetchDatabases]: the new content of the [databases] cell. Reading
    [response.data.databases] throws when [response.data] is [null] or
    [undefined]; the [catch] logs the error and the cell is left alone. *)
Definition fetchDatabases (databases : value) (o : get_outcome) : value :=
  match o with
  | GetResolved response =>
      if nullish response || nullish (get response "data") then databases
      else js_or (get (get response "data") "databases") (VArr [])
  | GetRejected => databases
  end.

(** The record is unset, or an object with streamed properties only. *)
Definition streamed_record (st : ui_state) : Prop :=
  result st = VNull ∨ ∃ m, result st = VObj m ∧ dom m ⊆ streamed_keys.

(** The property of the record a merging branch writes. *)
Definition merged_key (b : branch) : option string :=
  match b with
  | BSql => Some "sql"
  | BExplanation => Some "sql_explanation"
  | BAnswer => Some "natural_language_answer"
  | _ => None
  end%string.

(** The text of some lines, each followed by its line feed. *)
Definition terminated (lines : list (list N)) : list N :=
  flat_map (λ line, line ++ [10]) lines.

(** The states the UTF-8 decoder can be in between two bytes: no character
    in progress, or one whose bits so far are not all zero, or one just
    begun by a leading byte that narrows the range of the next byte. *)
Definition utf8_wf (d : utf8_decoder) : Prop :=
  bytes_needed d = 0
  ∨ code_point d ≠ 0
  ∨ (bytes_seen d = 0 ∧ (2 ≤ bytes_needed d)
     ∧ (144 ≤ lower_boundary d) ∧ (upper_boundary d ≤ 191)).

(** ** The caller: [App], with the [Sidebar] menu *)

(** The entries of [menuItems] in [Sidebar]. *)
Inductive menu_item := MQuery | MDatabases | MKnowledge | MSettings.

Definition item_id (i : menu_item) : list N :=
  match i with
  | MQuery => lit "query"
  | MDatabases => lit "databases"
  | MKnowledge => lit "knowledge"
  | MSettings => lit "settings"
  end.

(** The state cells of [App]. *)
Record app_state := {
  activeView : list N;
  selectedDatabase : value;
  apiConfig : value
}.

Definition app_mounted : app_state :=
  {| activeView := lit "query"; selectedDatabase := VNull;
     apiConfig := VObj {[ "baseUrl"%string := VStr (lit "http://localhost:5556") ]} |}.

(** What can happen to [App]: a click on a menu entry
    ([setActiveView(item.id)]), [handleDatabaseSelect] called by the
    database manager, and [setApiConfig] called by the settings panel. *)
Inductive app_action :=
| SidebarClick (i : menu_item)
| DatabaseSelect (id : value)
| SettingsSave (localConfig : value).

Definition app_step (st : app_state) (a : app_action) : app_state :=
  match a with
  | SidebarClick i =>
      {| activeView := item_id i; selectedDatabase := selectedDatabase st;
         apiConfig := apiConfig st |}
  | DatabaseSelect id =>
      {| activeView := lit "schema"; selectedDatabase := id;
         apiConfig := apiConfig st |}
  | SettingsSave localConfig =>
      {| activeView := activeView st; selectedDatabase := selectedDatabase st;
         apiConfig := localConfig |}
  end.

Definition app_run (actions : list app_action) : app_state :=
  fold_left app_step actions app_mounted.

(** The views of the main area, in the order of the five
    [{activeView === '...' && <.../>}] blocks, and those among them that a
    state renders. *)
Definition app_views : list (list N) :=
  [lit "query"; lit "databases"; lit "schema"; lit "knowledge"; lit "settings"].

Definition rendered_views (st : app_state) : list (list N) :=
  List.filter (λ v, bool_decide (activeView st = v)) app_views.

(** The id passed by the last [handleDatabaseSelect] among some actions. *)
Definition last_selected (actions : list app_action) : option value :=
  fold_left (λ acc a, match a with DatabaseSelect id => Some id | _ => acc end)
    actions None.

(** ** The table selection of [DatabaseManager]

    The selection handlers read nothing of a discovered table but its name;
    names are strings. *)
Record table := { table_name : list N }.

(** [toggleTableSelection]: the updater
    [prev => prev.includes(tableName) ? prev.filter(t => t !== tableName)
                                      : [...prev, tableName]] *)
Definition toggleTableSelection (tableName : list N) (prev : list (list N))
  : list (list N) :=
  if bool_decide (tableName ∈ prev)
  then filter (λ t, t ≠ tableName) prev
  else prev ++ [tableName].

(** [toggleAllTables] *)
Definition toggleAllTables (selectedTables : list (list N))
    (discoveredTables : list table) : list (list N) :=
  if bool_decide (length selectedTables = length discoveredTables)
  then []
  else table_name <$> discoveredTables.

(** [checked={selectedTables.length === discoveredTables.length}] *)
Definition select_all_checked (selectedTables : list (list N))
    (discoveredTables : list table) : bool :=
  bool_decide (length selectedTables = length discoveredTables).


(** The example component with only blanks typed as the question. *)
Definition blank_question : ui_state :=
  {| question := lit "   "; databaseId := lit "db1";
     loading := false; result := VNull; error := VNull; savingToKB := false;
     kbMessage := VNull; streamingReasoning := VStr []; currentStep := VStr [];
     isStreaming := false; activeTab := TabReasoning; unmounted := false |}.


Definition payload_sql : value := obj [("sql", str "SELECT 1")].

Definition payload_explanation : value :=
  obj [("explanation", str "Counts the rows")].

Definition failed_to_fetch : js_error :=
  {| err_response := VUndef; err_message := str "Failed to fetch" |}.

Definition users_orders : list table :=
  [ {| table_name := lit "users" |}; {| table_name := lit "orders" |} ].

(** [setQuestion], called by the question box on every edit. *)
Definition setQuestion (s : list N) (st : ui_state) : ui_state :=
  {| question := s; databaseId := databaseId st; loading := loading st;
     result := result st; error := error st; savingToKB := savingToKB st;
     kbMessage := kbMessage st; streamingReasoning := streamingReasoning st;
     currentStep := currentStep st; isStreaming := isStreaming st;
     activeTab := activeTab st; unmounted := unmounted st |}.

Definition payload_fixed : value :=
  obj [("attempts", VNum 2); ("sql", str "SELECT 1 FIX")].

Definition frame_step : list byte := frame "data:{'step':'parsing'}".

(** ** Two asks in flight

    Nothing cancels an ask: [handleKeyPress] calls [handleAsk] whatever
    [loading] is, and the reader loop of the ask before runs on. Each ask
    has its own buffer, decoder and current event, in the variables of its
    own call; the state cells are the component's and both asks write
    them. *)
Inductive ask_id := Earlier | Later.

(** The variables of one call of [handleAsk] between two reads. *)
Record loop_state := {
  loop_buffer : list N;
  loop_decoder : utf8_decoder;
  loop_event : value
}.

Definition new_loop : loop_state :=
  {| loop_buffer := []; loop_decoder := new_TextDecoder; loop_event := VNull |}.

(** A loop taking its next turn on the cells as they are now, and what it
    keeps for itself after the turn. *)
Definition resume (l : loop_state) (st : ui_state) : reader :=
  {| buffer := loop_buffer l; decoder := loop_decoder l;
     currentEvent := loop_event l; ui := st |}.

Definition suspend (r : reader) : loop_state :=
  {| loop_buffer := buffer r; loop_decoder := decoder r;
     loop_event := currentEvent r |}.

(** What an ask in flight gets next: a chunk from [reader.read()], the end
    of its body, or a failure ([fetch] or a read rejects, or the response is
    not ok and the ask throws). *)
Inductive arrival :=
| Arrives (a : ask_id) (chunk : list byte)
| Finishes (a : ask_id)
| Fails (a : ask_id) (err : js_error).

(** The two asks and the cells; an ask that has ended has no loop. *)
Record in_flight := {
  earlier_loop : option loop_state;
  later_loop : option loop_state;
  cells : ui_state
}.

Definition loop_of (a : ask_id) (f : in_flight) : option loop_state :=
  match a with Earlier => earlier_loop f | Later => later_loop f end.

Definition with_loop (a : ask_id) (l : option loop_state) (st : ui_state)
    (f : in_flight) : in_flight :=
  match a with
  | Earlier => {| earlier_loop := l; later_loop := later_loop f; cells := st |}
  | Later => {| earlier_loop := earlier_loop f; later_loop := l; cells := st |}
  end.

(** An sql frame of the new ask, then an error report of the ask before it,
    then the end of both bodies. *)
Definition late_error : list arrival :=
  [ Arrives Later frame_sql; Arrives Earlier frame_error;
    Finishes Earlier; Finishes Later ].


Section Handler.

(** [JSON.parse]: the parsed value, or [None] for the SyntaxError it throws. *)
Variable JSON_parse : list N → option value.

(** Number::toString, the decimal text of a number in a template literal or
    a string concatenation. *)
Variable Number_toString : float → list N.

(** [apiConfig.baseUrl] *)
Variable baseUrl : list N.

Fixpoint join_comma (l : list (list N)) : list N :=
  match l with
  | [] => []
  | [s] => s
  | s :: l' => s ++ [44] ++ join_comma l'
  end.

(** ToString, as template literals and [+] apply it; [None] is the
    TypeError of an object that cannot be converted: one with a [toString]
    property of its own, which hides the callable one it inherits. An array
    joins the strings of its elements, [null] and [undefined] counting as
    empty. *)
Fixpoint to_string (v : value) : option (list N) :=
  match v with
  | VUndef => Some (lit "undefined")
  | VNull => Some (lit "null")
  | VBool b => Some (if b then lit "true" else lit "false")
  | VNum f => Some (Number_toString f)
  | VStr s => Some s
  | VArr l =>
      join_comma <$>
      (fix each (l : list value) : option (list (list N)) :=
         match l with
         | [] => Some []
         | e :: l' =>
             match (if nullish e then Some [] else to_string e), each l' with
             | Some s, Some ss => Some (s :: ss)
             | _, _ => None
             end
         end) l
  | VObj m =>
      if bool_decide (is_Some (m !! "toString"%string)) then None
      else Some (lit "[object Object]")
  end.

(** [a + b]: arrays and objects become their strings first; with a string on
    either side the operands are concatenated, otherwise added as numbers. *)
Definition js_add (a b : value) : option value :=
  let prim v := match v with
                | VArr _ | VObj _ => VStr <$> to_string v
                | _ => Some v
                end in
  let num v := match v with
               | VNum f => f
               | VBool true => 1%float
               | VBool false | VNull => 0%float
               | _ => nan
               end in
  match prim a, prim b with
  | Some (VStr sa), Some pb => (fun sb => VStr (sa ++ sb)) <$> to_string pb
  | Some pa, Some (VStr sb) => (fun sa => VStr (sa ++ sb)) <$> to_string pa
  | Some pa, Some pb => Some (VNum (num pa + num pb))
  | _, _ => None
  end.

(** *** The bodies of the dispatch branches *)

(** [{ ...(prev?.metadata || {}), auto_fixed: true, fix_attempts: n }] *)
Definition fixed_metadata (prev n : value) : value :=
  VObj (<["fix_attempts"%string := n]>
        (<["auto_fixed"%string := VBool true]>
         (spread (js_or (get prev "metadata") (VObj ∅))))).

Definition on_step (data : value) (st : ui_state) : ui_state :=
  setCurrentStep (js_or (get data "message") (get data "step")) st.

(** The updater [prev => prev + data.chunk] runs when React applies it, not
    inside the [try]. *)
Definition on_chunk (data : value) (st : ui_state) : ui_state :=
  match js_add (streamingReasoning st) (get data "chunk") with
  | Some v => setStreamingReasoning v st
  | None => unmount st
  end.

Definition on_reasoning (data : value) (st : ui_state) : ui_state :=
  setStreamingReasoning (get data "reasoning") st.

Definition on_sql (data : value) (st : ui_state) : ui_state :=
  setResult (VObj (<["sql"%string := get data "sql"]> (spread (result st)))) st.

Definition on_attempts (data : value) (st : ui_state) : ui_state :=
  setResult
    (VObj (<["metadata"%string := fixed_metadata (result st) (get data "attempts")]>
           (<["sql"%string := get data "sql"]>
            (spread (js_or (result st) (VObj ∅)))))) st.

Definition on_explanation (data : value) (st : ui_state) : ui_state :=
  setCurrentStep (VStr [])
    (setResult (VObj (<["sql_explanation"%string := get data "explanation"]>
                      (spread (result st)))) st).

Definition on_answer (data : value) (st : ui_state) : ui_state :=
  setCurrentStep (VStr [])
    (setResult
       (VObj (<["natural_language_answer"%string :=
                  get data "natural_language_answer"]> (spread (result st)))) st).

(** The text of the execution notice; [None] when a template literal
    throws. *)
Definition row_count_notice (data : value) : option (list N) :=
  match (if truthy (get data "auto_fixed")
         then (fun n => lit " (auto-fixed in " ++ n ++ lit " attempts)")
              <$> to_string (get data "fix_attempts")
         else Some []),
        to_string (get data "row_count") with
  | Some autoFixInfo, Some rows =>
      Some (mark_ok ++ lit " Query executed successfully! " ++ rows
            ++ lit " rows returned" ++ autoFixInfo)
  | _, _ => None
  end.

Definition on_row_count (data : value) (st : ui_state) : option ui_state :=
  match row_count_notice data with
  | Some text =>
      let st1 := setCurrentStep (VStr text) st in
      Some (if truthy (get data "auto_fixed")
            then setResult
                   (VObj (<["metadata"%string :=
                              fixed_metadata (result st1) (get data "fix_attempts")]>
                          (spread (js_or (result st1) (VObj ∅))))) st1
            else st1)
  | None => None
  end.

Definition on_error (data : value) (st : ui_state) : ui_state :=
  setLoading false (setIsStreaming false (setError (get data "error") st)).

Definition on_query_id (data : value) (st : ui_state) : ui_state :=
  setCurrentStep (VStr [])
    (setLoading false (setIsStreaming false (setResult data st))).

Definition on_message (data : value) (st : ui_state) : ui_state :=
  setLoading false (setIsStreaming false (setError (get data "message") st)).

(** *** The dispatch on a parsed payload (the body of the [try] after
    [JSON.parse]); [None] is an exception thrown before any state is set
    (reading a property of [null], a template literal or [includes] that
    throws), which the [catch] around it swallows. *)
Definition handle_data (data : value) (st : ui_state) : option ui_state :=
  if nullish data then None
  else if truthy (get data "step") then Some (on_step data st)
  else if truthy (get data "chunk") then Some (on_chunk data st)
  else if truthy (get data "reasoning") then Some (on_reasoning data st)
  else if truthy (get data "sql") then Some (on_sql data st)
  else if truthy (get data "attempts") then Some (on_attempts data st)
  else if truthy (get data "explanation") then Some (on_explanation data st)
  else if truthy (get data "natural_language_answer") then Some (on_answer data st)
  else if is_defined (get data "row_count") then on_row_count data st
  else if truthy (get data "error") then Some (on_error data st)
  else if truthy (get data "query_id") then Some (on_query_id data st)
  else if truthy (get data "message") then
    match includes_error (get data "message") with
    | Some true => Some (on_message data st)
    | Some false => Some st
    | None => None
    end
  else Some st.

(** One line of the [for (const line of lines)] loop. *)
Definition process_line (es : value * ui_state) (line : list N)
  : value * ui_state :=
  let '(ev, st) := es in
  if bool_decide (trim line = []) then (VNull, st)
  else if startsWith (lit "event:") line then
    (VStr (trim (substring 6 line)), st)
  else if startsWith (lit "data:") line then
    match JSON_parse (trim (substring 5 line)) with
    | Some data =>
        match handle_data data st with
        | Some st' => (ev, st')
        | None => (ev, st)
        end
    | None => (ev, st)
    end
  else (ev, st).

Definition process_lines (es : value * ui_state) (lines : list (list N))
  : value * ui_state :=
  fold_left process_line lines es.

(** One turn of the [while (true)] loop on a chunk that was read. *)
Definition read_chunk (r : reader) (chunk : list byte) : reader :=
  let '(d, text) := decode (decoder r) chunk in
  let lines := split_lines (buffer r ++ text) in
  let '(ev, st) := process_lines (currentEvent r, ui r) (pop_rest lines) in
  {| buffer := pop_last lines; decoder := d; currentEvent := ev; ui := st |}.

Definition new_reader (st : ui_state) : reader :=
  {| buffer := []; decoder := new_TextDecoder; currentEvent := VNull; ui := st |}.

(** The lines one read hands to the [for] loop. *)
Definition lines_of_read (r : reader) (chunk : list byte) : list (list N) :=
  pop_rest (split_lines (buffer r ++ (decode (decoder r) chunk).2)).

(** All the lines the loop processes over the reads of a body, in order. *)
Fixpoint lines_of_reads (r : reader) (body : list (list byte))
  : list (list N) :=
  match body with
  | [] => []
  | chunk :: body' =>
      lines_of_read r chunk ++ lines_of_reads (read_chunk r chunk) body'
  end.

(** The [catch (err)] block of [handleAsk]. *)
Definition catch_ask (err : js_error) (st : ui_state) : ui_state :=
  setIsStreaming false
    (setError
       (js_or (get (get (err_response err) "data") "detail")
          (js_or (err_message err) (VStr (lit "An error occurred")))) st).

(** [new Error(`HTTP error! status: ${response.status}`)] *)
Definition http_error (status : float) : js_error :=
  {| err_response := VUndef;
     err_message := VStr (lit "HTTP error! status: " ++ Number_toString status) |}.

(** The state after the seven setters that open an ask. *)
Definition ask_started (st : ui_state) : ui_state :=
  setActiveTab TabReasoning
    (setIsStreaming true
       (setCurrentStep (VStr [])
          (setStreamingReasoning (VStr [])
             (setResult VNull (setError VNull (setLoading true st)))))).

Definition handleAsk (st : ui_state) (resp : fetch_outcome) : ui_state :=
  if bool_decide (trim (question st) = [])
     || bool_decide (trim (databaseId st) = [])
  then setError (VStr (lit "Please enter both a question and select a database")) st
  else
    let st0 := ask_started st in
    match resp with
    | FetchRejected err => setLoading false (catch_ask err st0)
    | FetchResponse ok status body ending =>
        if negb ok then setLoading false (catch_ask (http_error status) st0)
        else
          let r := fold_left read_chunk body (new_reader st0) in
          match ending with
          | ReadDone => setLoading false (ui r)
          | ReadRejected err => setLoading false (catch_ask err (ui r))
          end
    end.

(** [saveToKnowledgeBase]: the requests it issues and the state it leaves
    (the timer that clears the notice three seconds later is not part of
    it). *)
Definition saveToKnowledgeBase (st : ui_state) (post : post_outcome)
  : list request * ui_state :=
  if negb (truthy (result st))
     || negb (truthy (get (result st) "sql"))
     || negb (truthy (get (result st) "question"))
  then ([], st)
  else
    let st1 := setKbMessage VNull (setSavingToKB true st) in
    let req :=
      {| req_url := baseUrl ++ lit "/api/v1/databases/" ++ databaseId st
                    ++ lit "/knowledge-base/sql-pairs";
         req_body :=
           VObj (<["database_id"%string := VStr (databaseId st)]>
                 (<["question"%string := get (result st) "question"]>
                  (<["sql"%string := get (result st) "sql"]>
                   (<["description"%string :=
                        js_or (get (result st) "sql_explanation") VNull]> ∅)))) |} in
    let st2 :=
      match post with
      | PostResolved =>
          setKbMessage
            (VObj (<["type"%string := VStr (lit "success")]>
                   (<["text"%string :=
                        VStr (mark_ok ++ lit " Saved to Knowledge Base!")]> ∅))) st1
      | PostRejected err =>
          match to_string (js_or (get (get (err_response err) "data") "detail")
                             (err_message err)) with
          | Some detail =>
              setKbMessage
                (VObj (<["type"%string := VStr (lit "error")]>
                       (<["text"%string :=
                            VStr (mark_failed ++ lit " Failed to save: "
                                  ++ detail)]> ∅))) st1
          | None => st1
          end
      end in
    ([req], setSavingToKB false st2).

(** *** The dispatch read as a classifier

    The [if]/[else if] chain of [handle_data] tests one property per branch;
    these definitions name the tests, their order in the source and the
    effect of each branch, so that the chain can be compared with a
    first-match search. *)

Definition branch_test (b : branch) (data : value) : bool :=
  match b with
  | BRowCount => is_defined (get data "row_count")
  | _ => truthy (get data (branch_field b))
  end.

(** The order of the tests in the source. *)
Definition dispatch_order : list branch :=
  [BStep; BChunk; BReasoning; BSql; BAttempts; BExplanation; BAnswer;
   BRowCount; BError; BQueryId; BMessage].

Definition first_match (order : list branch) (data : value) : option branch :=
  List.find (fun b => branch_test b data) order.

Definition branch_effect (b : branch) (data : value) (st : ui_state)
  : option ui_state :=
  match b with
  | BStep => Some (on_step data st)
  | BChunk => Some (on_chunk data st)
  | BReasoning => Some (on_reasoning data st)
  | BSql => Some (on_sql data st)
  | BAttempts => Some (on_attempts data st)
  | BExplanation => Some (on_explanation data st)
  | BAnswer => Some (on_answer data st)
  | BRowCount => on_row_count data st
  | BError => Some (on_error data st)
  | BQueryId => Some (on_query_id data st)
  | BMessage =>
      match includes_error (get data "message") with
      | Some true => Some (on_message data st)
      | Some false => Some st
      | None => None
      end
  end.

(** A payload whose branch reports an error: the [error] branch, or the
    [message] branch when the message includes 'error'. *)
Definition is_error_update (data : value) : bool :=
  match first_match dispatch_order data with
  | Some BError => true
  | Some BMessage => bool_decide (includes_error (get data "message") = Some true)
  | _ => false
  end.

(** A payload whose branch ends the streaming display: an error report or
    the complete result. *)
Definition is_terminal_update (data : value) : bool :=
  is_error_update data
  || bool_decide (first_match dispatch_order data = Some BQueryId).

(** *** The lines of the stream, as [process_line] tells them apart *)

Definition is_blank (line : list N) : bool := bool_decide (trim line = []).

Definition is_event_line (line : list N) : bool :=
  negb (is_blank line) && startsWith (lit "event:") line.

Definition is_data_line (line : list N) : bool :=
  negb (is_blank line) && negb (startsWith (lit "event:") line)
  && startsWith (lit "data:") line.

(** The text a data line hands to [JSON.parse]. *)
Definition payload_of (line : list N) : list N := trim (substring 5 line).

Definition payloads (lines : list (list N)) : list (list N) :=
  payload_of <$> List.filter is_data_line lines.

(** The lines of a stream without its event lines. *)
Definition drop_event_lines (lines : list (list N)) : list (list N) :=
  List.filter (fun line => negb (is_event_line line)) lines.

(** The frames the loop dispatches: for each data line, the event name
    current at that line and its payload text. *)
Fixpoint frames (ev : value) (lines : list (list N)) : list (value * list N) :=
  match lines with
  | [] => []
  | line :: lines' =>
      if is_blank line then frames VNull lines'
      else if startsWith (lit "event:") line then
        frames (VStr (trim (substring 6 line))) lines'
      else if startsWith (lit "data:") line then
        (ev, payload_of line) :: frames ev lines'
      else frames ev lines'
  end.

Definition is_terminal_line (line : list N) : bool :=
  is_data_line line &&
  match JSON_parse (payload_of line) with
  | Some data => is_terminal_update data
  | None => false
  end.

(** The guard of [handleAsk]: both inputs are non-blank. *)
Definition asks (st : ui_state) : bool :=
  negb (bool_decide (trim (question st) = [])
        || bool_decide (trim (databaseId st) = [])).

(** The guard of [saveToKnowledgeBase]. *)
Definition can_save (st : ui_state) : bool :=
  truthy (result st) && truthy (get (result st) "sql")
  && truthy (get (result st) "question").


(** *** Further definitions for the properties below *)

(** A line the loop passes over: blank, an event name, neither event nor
    data, or data that [JSON.parse] rejects. *)
Definition inert_line (line : list N) : bool :=
  negb (is_data_line line) ||
  match JSON_parse (payload_of line) with
  | Some _ => false
  | None => true
  end.

(** The reader after the reads of a body. *)
Definition read_all (st : ui_state) (body : list (list byte)) : reader :=
  fold_left read_chunk body (new_reader st).

(** Between two reads the buffer holds no line feed and the decoder is in
    one of its states. *)
Definition reader_wf (r : reader) : Prop :=
  (10 ∉ buffer r) ∧ utf8_wf (decoder r).

(** One arrival: the turn of the [while] loop on a chunk, or the way out of
    the ask through [finally], after the [catch] when it failed. An arrival
    for an ask that has ended does nothing. *)
Definition arrive (f : in_flight) (e : arrival) : in_flight :=
  match e with
  | Arrives a chunk =>
      match loop_of a f with
      | Some l =>
          let r := read_chunk (resume l (cells f)) chunk in
          with_loop a (Some (suspend r)) (ui r) f
      | None => f
      end
  | Finishes a =>
      match loop_of a f with
      | Some _ => with_loop a None (setLoading false (cells f)) f
      | None => f
      end
  | Fails a err =>
      match loop_of a f with
      | Some _ =>
          with_loop a None (setLoading false (catch_ask err (cells f))) f
      | None => f
      end
  end.

(** [handleAsk] called in state [st] while the ask before it is where
    [earlier] says ([None]: it has ended, or there was none), followed by
    the arrivals of both asks in the order they come. *)
Definition ask_during (earlier : option loop_state) (st : ui_state)
    (arrivals : list arrival) : ui_state :=
  cells
    (fold_left arrive arrivals
       (if bool_decide (trim (question st) = [])
           || bool_decide (trim (databaseId st) = [])
        then {| earlier_loop := earlier; later_loop := None;
                cells := setError (VStr (lit "Please enter both a question and select a database")) st |}
        else {| earlier_loop := earlier; later_loop := Some new_loop;
                cells := ask_started st |})).

(** The arrivals of one ask whose [fetch] has the given outcome. *)
Definition arrivals_of (a : ask_id) (resp : fetch_outcome) : list arrival :=
  match resp with
  | FetchRejected err => [Fails a err]
  | FetchResponse ok status body ending =>
      if negb ok then [Fails a (http_error status)]
      else (Arrives a <$> body)
           ++ [match ending with
               | ReadDone => Finishes a
               | ReadRejected err => Fails a err
               end]
  end.

(** ** Lines and chunks *)

Lemma split_lines_nonempty (s : list N) : split_lines s ≠ [].
Proof.
  destruct s as [|c s]; simpl; [done|].
  destruct (c =? 10); [done|].
  by destruct (split_lines s).
Qed.

Lemma pop_rest_cons (l : list N) (ls : list (list N)) :
  ls ≠ [] → pop_rest (l :: ls) = l :: pop_rest ls.
Proof. by destruct ls. Qed.

Lemma pop_last_cons (l : list N) (ls : list (list N)) :
  ls ≠ [] → pop_last (l :: ls) = pop_last ls.
Proof. by destruct ls. Qed.

Lemma pop_rest_app (xs ys : list (list N)) :
  ys ≠ [] → pop_rest (xs ++ ys) = xs ++ pop_rest ys.
Proof.
  intros Hys. induction xs as [|x xs IH]; simpl; [done|].
  rewrite <- IH. apply pop_rest_cons. by destruct xs, ys.
Qed.

Lemma pop_last_app (xs ys : list (list N)) :
  ys ≠ [] → pop_last (xs ++ ys) = pop_last ys.
Proof.
  intros Hys. induction xs as [|x xs IH]; simpl; [done|].
  rewrite <- IH. apply pop_last_cons. by destruct xs, ys.
Qed.

(** Splitting a text that arrives in two pieces: the complete lines of the
    first piece, then the split of what it left over followed by the second
    piece. *)
Lemma split_lines_app (a b : list N) :
  split_lines (a ++ b) =
  pop_rest (split_lines a) ++ split_lines (pop_last (split_lines a) ++ b).
Proof.
  induction a as [|c a IH]; [done|].
  pose proof (split_lines_nonempty a) as Hne.
  cbn [app split_lines]. destruct (c =? 10) eqn:Hc.
  - rewrite pop_rest_cons, pop_last_cons by done. by rewrite IH.
  - rewrite IH. destruct (split_lines a) as [|l [|x ls]]; [done| |].
    + cbn. rewrite Hc. by destruct (split_lines (l ++ b)).
    + rewrite !pop_rest_cons, !pop_last_cons by done. done.
Qed.

Lemma decode_app (d : utf8_decoder) (a b : list byte) :
  decode d (a ++ b) =
  let '(d1, t1) := decode d a in
  let '(d2, t2) := decode d1 b in (d2, t1 ++ t2).
Proof.
  revert d. induction a as [|x a IH]; intros d; cbn [app decode].
  - by destruct (decode d b).
  - destruct (decode_byte d x) as [d0 t0]. rewrite IH.
    destruct (decode d0 a) as [d1 t1], (decode d1 b) as [d2 t2].
    by rewrite app_assoc.
Qed.

Lemma process_lines_app es (xs ys : list (list N)) :
  process_lines es (xs ++ ys) = process_lines (process_lines es xs) ys.
Proof. apply fold_left_app. Qed.

(** Two reads in a row leave the loop where one read of both chunks at once
    leaves it. *)
Lemma read_chunk_app (r : reader) (a b : list byte) :
  read_chunk (read_chunk r a) b = read_chunk r (a ++ b).
Proof.
  unfold read_chunk. rewrite decode_app.
  destruct (decode (decoder r) a) as [d1 t1].
  destruct (process_lines (currentEvent r, ui r)
              (pop_rest (split_lines (buffer r ++ t1)))) as [ev1 st1] eqn:H1.
  cbn [buffer decoder currentEvent ui].
  destruct (decode d1 b) as [d2 t2].
  rewrite (app_assoc (buffer r)), (split_lines_app (buffer r ++ t1)).
  pose proof (split_lines_nonempty (pop_last (split_lines (buffer r ++ t1)) ++ t2)).
  rewrite pop_rest_app, pop_last_app, process_lines_app, H1 by done.
  done.
Qed.

Lemma read_chunk_nil (st : ui_state) :
  read_chunk (new_reader st) [] = new_reader st.
Proof. reflexivity. Qed.

Lemma read_body_from (r : reader) (a : list byte) (body : list (list byte)) :
  fold_left read_chunk body (read_chunk r a) = read_chunk r (a ++ concat body).
Proof.
  revert a. induction body as [|c body IH]; intros a; cbn [fold_left concat].
  - by rewrite app_nil_r.
  - rewrite read_chunk_app, IH. by rewrite app_assoc.
Qed.

(** The whole body, read in any number of chunks, leaves the loop where one
    read of all its bytes leaves it. *)
Lemma read_body (st : ui_state) (body : list (list byte)) :
  fold_left read_chunk body (new_reader st) =
  read_chunk (new_reader st) (concat body).
Proof.
  rewrite <- (read_chunk_nil st) at 1. by rewrite read_body_from.
Qed.

Lemma lines_of_read_app (r : reader) (a b : list byte) :
  lines_of_read r a ++ lines_of_read (read_chunk r a) b =
  lines_of_read r (a ++ b).
Proof.
  unfold lines_of_read, read_chunk. rewrite decode_app.
  destruct (decode (decoder r) a) as [d1 t1].
  destruct (process_lines (currentEvent r, ui r)
              (pop_rest (split_lines (buffer r ++ t1)))) as [ev1 st1].
  cbn [buffer decoder fst snd].
  destruct (decode d1 b) as [d2 t2]. cbn [snd].
  rewrite (app_assoc (buffer r)), (split_lines_app (buffer r ++ t1)).
  rewrite pop_rest_app; [done|apply split_lines_nonempty].
Qed.

Lemma lines_of_reads_concat (r : reader) (a : list byte)
    (body : list (list byte)) :
  lines_of_read r a ++ lines_of_reads (read_chunk r a) body =
  lines_of_read r (a ++ concat body).
Proof.
  revert r a. induction body as [|c body IH]; intros r a;
    cbn [lines_of_reads concat].
  - by rewrite !app_nil_r.
  - rewrite IH, lines_of_read_app. done.
Qed.

(** All the lines of a body: the complete lines of its decoded text. *)
Lemma lines_of_body (st : ui_state) (body : list (list byte)) :
  lines_of_reads (new_reader st) body =
  pop_rest (split_lines (decode new_TextDecoder (concat body)).2).
Proof.
  rewrite <- (read_chunk_nil st) at 1.
  change (lines_of_reads _ body)
    with (lines_of_read (new_reader st) [] ++
          lines_of_reads (read_chunk (new_reader st) []) body).
  by rewrite lines_of_reads_concat.
Qed.

(** ** The dispatch *)

Lemma get_insert_eq (m : gmap string value) (k : string) (v : value) :
  get (VObj (<[k:=v]> m)) k = v.
Proof. cbn. by rewrite lookup_insert_eq. Qed.

Lemma get_insert_ne (m : gmap string value) (k k' : string) (v : value) :
  k ≠ k' → get (VObj (<[k:=v]> m)) k' = get (VObj m) k'.
Proof. intros. cbn. by rewrite lookup_insert_ne. Qed.

(** The [if]/[else if] chain is a first-match search along
    [dispatch_order]. *)
Lemma handle_data_dispatch (data : value) (st : ui_state) :
  handle_data data st =
  if nullish data then None
  else match first_match dispatch_order data with
       | Some b => branch_effect b data st
       | None => Some st
       end.
Proof.
  unfold handle_data, first_match, dispatch_order.
  cbn [List.find branch_test branch_field].
  destruct (nullish data); [done|].
  repeat match goal with
         | |- context [if ?b then _ else _] => destruct b; [done|]
         end.
  done.
Qed.

Lemma first_match_object (data : value) (b : branch) :
  first_match dispatch_order data = Some b → ∃ m, data = VObj m.
Proof.
  destruct data; try discriminate. eauto.
Qed.

(** C1 (the divergence of the code). The attempts branch reads the sql of
    the payload ([sql: data.sql]), yet the sql test stands before the
    attempts test in the chain: a payload with a truthy sql never reaches
    the attempts branch, and a payload that does reach it has no truthy sql
    to write. Every payload with a truthy sql and no truthy step, chunk or
    reasoning takes the sql branch, whatever else it carries (attempts,
    query_id, error): the record gets the sql, every other property of the
    record, metadata among them, stays as it was, and neither the error nor
    the flags are touched. *)
Theorem sql_test_shadows_attempts (data : value) (st : ui_state) :
  truthy (get data "step") = false → truthy (get data "chunk") = false →
  truthy (get data "reasoning") = false → truthy (get data "sql") = true →
  result_shape st →
  first_match dispatch_order data = Some BSql
  ∧ (∃ st', handle_data data st = Some st'
       ∧ get (result st') "sql" = get data "sql"
       ∧ (∀ k, k ≠ "sql"%string → get (result st') k = get (result st) k)
       ∧ error st' = error st
       ∧ isStreaming st' = isStreaming st
       ∧ loading st' = loading st)
  ∧ (∀ data', first_match dispatch_order data' = Some BAttempts →
              truthy (get data' "sql") = false).
Proof.
  intros H1 H2 H3 H4 Hshape.
  assert (first_match dispatch_order data = Some BSql) as Hb.
  { unfold first_match, dispatch_order.
    cbn [List.find branch_test branch_field]. by rewrite H1, H2, H3, H4. }
  split; [exact Hb|]. split.
  - destruct (first_match_object _ _ Hb) as [m ->].
    rewrite handle_data_dispatch, Hb. cbn [nullish branch_effect].
    eexists; split; [done|]. unfold on_sql. cbn [result setResult].
    split; [by rewrite get_insert_eq|]. split; [|done].
    intros k Hk. rewrite get_insert_ne by done.
    by destruct Hshape as [->|[r ->]].
  - intros data'. unfold first_match, dispatch_order.
    cbn [List.find branch_test branch_field].
    repeat match goal with
           | |- context [if ?c then _ else _] =>
               destruct c eqn:?; [done|]
           end.
    done.
Qed.

(** C2 (amended). A payload that takes the query_id branch replaces the
    accumulated record by the snapshot itself: every property reads as the
    snapshot has it, so what the snapshot carries overwrites and what it
    omits is dropped. The branch also ends the streaming display
    (isStreaming and loading false, current step cleared) and leaves the
    error and the streamed reasoning as they were. *)
Theorem complete_result_replaces (data : value) (st : ui_state) :
  first_match dispatch_order data = Some BQueryId →
  ∃ st', handle_data data st = Some st'
    ∧ result st' = data
    ∧ (∀ k, get (result st') k = get data k)
    ∧ isStreaming st' = false
    ∧ loading st' = false
    ∧ currentStep st' = VStr []
    ∧ error st' = error st
    ∧ streamingReasoning st' = streamingReasoning st.
Proof.
  intros Hb. destruct (first_match_object _ _ Hb) as [m ->].
  rewrite handle_data_dispatch, Hb. cbn [nullish branch_effect].
  eexists; split; [done|]. by repeat split.
Qed.

Lemma first_match_test (order : list branch) (data : value) (b : branch) :
  first_match order data = Some b → branch_test b data = true.
Proof. intros H. by apply find_some in H as [_ H]. Qed.

(** ** After an error report *)

Lemma on_chunk_frame (data : value) (st : ui_state) :
  error (on_chunk data st) = error st
  ∧ isStreaming (on_chunk data st) = isStreaming st
  ∧ loading (on_chunk data st) = loading st
  ∧ result (on_chunk data st) = result st.
Proof. unfold on_chunk. by destruct (js_add _ _). Qed.

Lemma on_row_count_frame (data : value) (st st' : ui_state) :
  on_row_count data st = Some st' →
  error st' = error st
  ∧ isStreaming st' = isStreaming st
  ∧ loading st' = loading st.
Proof.
  unfold on_row_count. intros H.
  destruct (row_count_notice data); [|done].
  destruct (truthy (get data "auto_fixed")); by simplify_eq.
Qed.





(** ** A stream that ends without a terminal frame *)

Lemma branch_effect_not_terminal (b : branch) (data : value)
    (st st' : ui_state) :
  branch_effect b data st = Some st' →
  b ≠ BError → b ≠ BQueryId →
  (b = BMessage → includes_error (get data "message") ≠ Some true) →
  error st' = error st ∧ isStreaming st' = isStreaming st.
Proof.
  intros H He Hq Hm. destruct b; try done; cbn in H; simplify_eq; try done.
  - destruct (on_chunk_frame data st) as (-> & -> & _). done.
  - apply on_row_count_frame in H as (-> & -> & _). done.
  - destruct (includes_error (get data "message")) as [[]|]; simplify_eq;
      [by destruct Hm|done].
Qed.

Lemma handle_data_not_terminal (data : value) (st st' : ui_state) :
  is_terminal_update data = false →
  handle_data data st = Some st' →
  error st' = error st ∧ isStreaming st' = isStreaming st.
Proof.
  unfold is_terminal_update, is_error_update.
  rewrite handle_data_dispatch. intros Hnt H.
  destruct (nullish data); [done|].
  apply orb_false_elim in Hnt as [Hne Hnq].
  apply bool_decide_eq_false in Hnq.
  destruct (first_match dispatch_order data) as [b|]; [|by simplify_eq].
  eapply branch_effect_not_terminal; [done|..].
  - by intros ->.
  - by intros ->.
  - intros ->. by apply bool_decide_eq_false in Hne.
Qed.

Lemma process_line_not_terminal ev (st : ui_state) (line : list N) :
  is_terminal_line line = false →
  let st' := (process_line (ev, st) line).2 in
  error st' = error st ∧ isStreaming st' = isStreaming st.
Proof.
  unfold is_terminal_line, is_data_line, is_blank, payload_of, process_line.
  intros Hnt.
  destruct (bool_decide (trim line = [])); [done|].
  destruct (startsWith (lit "event:") line); [done|].
  destruct (startsWith (lit "data:") line); [|done].
  cbn [negb andb] in Hnt.
  destruct (JSON_parse (trim (substring 5 line))) as [data|]; [|done].
  destruct (handle_data data st) as [st'|] eqn:H; [|done].
  by eapply handle_data_not_terminal.
Qed.

Lemma process_lines_not_terminal ev (st : ui_state) (lines : list (list N)) :
  Forall (fun line => is_terminal_line line = false) lines →
  let st' := (process_lines (ev, st) lines).2 in
  error st' = error st ∧ isStreaming st' = isStreaming st.
Proof.
  intros Hall. revert ev st.
  induction Hall as [|line lines Hline _ IH]; intros ev st; [done|].
  cbn [process_lines fold_left].
  pose proof (process_line_not_terminal ev st line Hline) as [He Hs].
  destruct (process_line (ev, st) line) as [ev1 st1]. cbn [snd] in *.
  specialize (IH ev1 st1). cbn zeta in IH. unfold process_lines in IH.
  destruct IH as [IHe IHs]. split; congruence.
Qed.

(** The state the loop leaves after a body: the lines of the body, each
    processed once and in order. *)
Lemma ui_read_body (st : ui_state) (body : list (list byte)) :
  ui (fold_left read_chunk body (new_reader st)) =
  (process_lines (VNull, st) (lines_of_reads (new_reader st) body)).2.
Proof.
  rewrite read_body, lines_of_body. unfold read_chunk.
  cbn [new_reader buffer decoder currentEvent ui app].
  destruct (decode new_TextDecoder (concat body)) as [d text]. cbn [snd].
  by destruct (process_lines _ _).
Qed.

Lemma handleAsk_clean_end (st : ui_state) (status : float)
    (body : list (list byte)) :
  asks st = true →
  handleAsk st (FetchResponse true status body ReadDone) =
  setLoading false
    (process_lines (VNull, ask_started st)
       (lines_of_reads (new_reader (ask_started st)) body)).2.
Proof.
  unfold asks, handleAsk. intros Hasks.
  apply negb_true_iff in Hasks. rewrite Hasks. cbn [negb].
  by rewrite ui_read_body.
Qed.

(** C4 (amended). When the transport ends cleanly and no frame of the body
    was an error report or a complete result, the ask ends with loading
    false, with no error (the end of the stream reports none) and with the
    record the frames built so far left in place. *)
Theorem clean_end_keeps_partial (st : ui_state) (status : float)
    (body : list (list byte)) :
  asks st = true →
  Forall (fun line => is_terminal_line line = false)
    (lines_of_reads (new_reader (ask_started st)) body) →
  let st' := handleAsk st (FetchResponse true status body ReadDone) in
  error st' = VNull
  ∧ loading st' = false
  ∧ result st' =
    result (process_lines (VNull, ask_started st)
              (lines_of_reads (new_reader (ask_started st)) body)).2.
Proof.
  intros Hasks Hall. cbn zeta. rewrite handleAsk_clean_end by done.
  pose proof (process_lines_not_terminal VNull (ask_started st) _ Hall) as [He _].
  cbn zeta in He. cbn [error loading result setLoading]. by rewrite He.
Qed.

(** ** Chunk boundaries *)

(** C5. However the bytes of a body are cut into chunks (between lines,
    inside a line, inside a multi-byte character), the loop processes the
    same lines and so dispatches the same frames, the reader is left in the
    same state, and the ask ends in the same state. *)
Theorem chunking_independent (st st0 : ui_state) (ok : bool) (status : float)
    (ending : stream_end) (body1 body2 : list (list byte)) :
  concat body1 = concat body2 →
  lines_of_reads (new_reader st0) body1 = lines_of_reads (new_reader st0) body2
  ∧ frames VNull (lines_of_reads (new_reader st0) body1)
    = frames VNull (lines_of_reads (new_reader st0) body2)
  ∧ fold_left read_chunk body1 (new_reader st0)
    = fold_left read_chunk body2 (new_reader st0)
  ∧ handleAsk st (FetchResponse ok status body1 ending)
    = handleAsk st (FetchResponse ok status body2 ending).
Proof.
  intros Hcat.
  assert (lines_of_reads (new_reader st0) body1
          = lines_of_reads (new_reader st0) body2) as Hlines
    by (by rewrite !lines_of_body, Hcat).
  split; [done|]. split; [by rewrite Hlines|].
  split; [by rewrite !read_body, Hcat|].
  unfold handleAsk. by rewrite !read_body, Hcat.
Qed.

(** ** Event names *)

Lemma process_line_event_blind ev ev' (st : ui_state) (line : list N) :
  (process_line (ev, st) line).2 = (process_line (ev', st) line).2.
Proof. unfold process_line. by repeat case_match. Qed.

Lemma process_line_event_line ev (st : ui_state) (line : list N) :
  is_event_line line = true → (process_line (ev, st) line).2 = st.
Proof.
  unfold is_event_line, is_blank, process_line. intros H.
  apply andb_true_iff in H as [Hb He]. apply negb_true_iff in Hb.
  by rewrite Hb, He.
Qed.

Lemma process_lines_drop_events ev ev' (st : ui_state)
    (lines : list (list N)) :
  (process_lines (ev, st) lines).2 =
  (process_lines (ev', st) (drop_event_lines lines)).2.
Proof.
  revert ev ev' st. induction lines as [|line lines IH]; intros ev ev' st;
    [done|].
  cbn [process_lines fold_left drop_event_lines List.filter].
  destruct (is_event_line line) eqn:Hev; cbn [negb].
  - pose proof (process_line_event_line ev st line Hev) as H1.
    destruct (process_line (ev, st) line) as [ev1 st1]. cbn [snd] in H1.
    subst st1. apply IH.
  - cbn [fold_left].
    pose proof (process_line_event_blind ev ev' st line) as H1.
    destruct (process_line (ev, st) line) as [ev1 st1].
    destruct (process_line (ev', st) line) as [ev2 st2]. cbn [snd] in H1.
    subst st2. apply IH.
Qed.

Lemma event_line_not_data (line : list N) :
  is_event_line line = true → is_data_line line = false.
Proof.
  unfold is_event_line, is_data_line. intros H.
  apply andb_true_iff in H as [_ ->]. by rewrite andb_false_r.
Qed.

Lemma payloads_drop_events (lines : list (list N)) :
  payloads (drop_event_lines lines) = payloads lines.
Proof.
  unfold payloads, drop_event_lines. f_equal.
  induction lines as [|line lines IH]; [done|]. cbn [List.filter].
  destruct (is_event_line line) eqn:Hev; cbn [negb List.filter].
  - by rewrite (event_line_not_data line Hev).
  - by rewrite IH.
Qed.

(** C10. The event name has no effect on the state. Two bodies whose lines
    agree once the event lines are left out (event names changed, event
    lines added or removed) hand the same payloads to the dispatch in the
    same order and end the ask in the same state: record, flags, error,
    current step and streamed reasoning alike. *)
Theorem event_names_irrelevant (st : ui_state) (ok : bool) (status : float)
    (ending : stream_end) (body1 body2 : list (list byte)) :
  drop_event_lines (lines_of_reads (new_reader (ask_started st)) body1)
  = drop_event_lines (lines_of_reads (new_reader (ask_started st)) body2) →
  payloads (lines_of_reads (new_reader (ask_started st)) body1)
  = payloads (lines_of_reads (new_reader (ask_started st)) body2)
  ∧ handleAsk st (FetchResponse ok status body1 ending)
    = handleAsk st (FetchResponse ok status body2 ending).
Proof.
  intros Hsame. split.
  - by rewrite <- (payloads_drop_events (lines_of_reads _ body1)), Hsame,
      payloads_drop_events.
  - unfold handleAsk. rewrite !ui_read_body.
    rewrite (process_lines_drop_events VNull VNull _ (lines_of_reads _ body1)).
    rewrite (process_lines_drop_events VNull VNull _ (lines_of_reads _ body2)).
    by rewrite Hsame.
Qed.

(** ** The execution notice *)

Lemma get_spread_or (v : value) (k : string) :
  v = VNull ∨ (∃ m, v = VObj m) →
  get (VObj (spread (js_or v (VObj ∅)))) k = get v k.
Proof. by intros [->|[m ->]]. Qed.

Lemma get_spread (v : value) (k : string) :
  v = VNull ∨ (∃ m, v = VObj m) → get (VObj (spread v)) k = get v k.
Proof. by intros [->|[m ->]]. Qed.

(** C6 (amended). A payload that takes the row_count branch writes no
    execution summary into the record: it sets the current-step notice and
    leaves the error and the flags alone. When its auto_fixed is not truthy
    the record is left as it was; when it is truthy the record gets
    metadata.auto_fixed = true and metadata.fix_attempts = the payload's
    fix_attempts, and every other property of the record reads as before.
    (A payload whose notice cannot be built, its row_count or fix_attempts
    having no string, throws and is dropped.) *)
Theorem row_count_effect (data : value) (st : ui_state) :
  first_match dispatch_order data = Some BRowCount →
  match row_count_notice data with
  | None => handle_data data st = None
  | Some text =>
      ∃ st', handle_data data st = Some st'
        ∧ currentStep st' = VStr text
        ∧ error st' = error st
        ∧ isStreaming st' = isStreaming st
        ∧ loading st' = loading st
        ∧ (truthy (get data "auto_fixed") = false → result st' = result st)
        ∧ (truthy (get data "auto_fixed") = true →
           get (get (result st') "metadata") "auto_fixed" = VBool true
           ∧ get (get (result st') "metadata") "fix_attempts"
             = get data "fix_attempts"
           ∧ (result_shape st →
              ∀ k, k ≠ "metadata"%string →
                   get (result st') k = get (result st) k))
  end.
Proof.
  intros Hb. destruct (first_match_object _ _ Hb) as [m ->].
  rewrite handle_data_dispatch, Hb. cbn [nullish branch_effect].
  unfold on_row_count.
  destruct (row_count_notice (VObj m)) as [text|]; [|done].
  eexists; split; [done|].
  destruct (truthy (get (VObj m) "auto_fixed")) eqn:Hfix;
    cbn [error isStreaming loading currentStep result setResult setCurrentStep];
    repeat split; try done.
  - unfold fixed_metadata. by rewrite get_insert_eq, get_insert_ne, get_insert_eq.
  - unfold fixed_metadata. by rewrite !get_insert_eq.
  - intros Hshape k Hk. rewrite get_insert_ne by done.
    by apply get_spread_or.
Qed.

(** ** The streamed reasoning *)

Lemma handle_chunk (a t : list N) (st : ui_state) :
  a ≠ [] → streamingReasoning st = VStr t →
  handle_data (obj [("chunk"%string, VStr a)]) st =
  Some (setStreamingReasoning (VStr (t ++ a)) st).
Proof.
  intros Ha Ht. destruct a as [|n a]; [done|]. rewrite handle_data_dispatch.
  assert (first_match dispatch_order (obj [("chunk"%string, VStr (n :: a))])
          = Some BChunk) as -> by (vm_compute; reflexivity).
  cbn [obj nullish branch_effect]. unfold on_chunk. by rewrite Ht.
Qed.

Lemma handle_reasoning (c : list N) (st : ui_state) :
  c ≠ [] →
  handle_data (obj [("reasoning"%string, VStr c)]) st =
  Some (setStreamingReasoning (VStr c) st).
Proof.
  intros Hc. destruct c as [|n c]; [done|]. rewrite handle_data_dispatch.
  assert (first_match dispatch_order (obj [("reasoning"%string, VStr (n :: c))])
          = Some BReasoning) as -> by (vm_compute; reflexivity).
  reflexivity.
Qed.

(** C7. On a record whose streamed reasoning is empty, a chunk payload
    followed by a second chunk payload leaves the two texts concatenated in
    order, and a reasoning payload after them replaces the accumulated text
    by its own. *)
Theorem reasoning_accumulates (a b c : list N) (st : ui_state) :
  a ≠ [] → b ≠ [] → c ≠ [] →
  streamingReasoning st = VStr [] →
  ∃ s1 s2 s3,
    handle_data (obj [("chunk"%string, VStr a)]) st = Some s1
    ∧ handle_data (obj [("chunk"%string, VStr b)]) s1 = Some s2
    ∧ handle_data (obj [("reasoning"%string, VStr c)]) s2 = Some s3
    ∧ streamingReasoning s1 = VStr a
    ∧ streamingReasoning s2 = VStr (a ++ b)
    ∧ streamingReasoning s3 = VStr c.
Proof.
  intros Ha Hb Hc Hst.
  eexists _, _, _.
  rewrite (handle_chunk a [] st Ha Hst).
  rewrite (handle_chunk b a (setStreamingReasoning (VStr ([] ++ a)) st) Hb)
    by done.
  rewrite handle_reasoning by done. by repeat split.
Qed.

(** ** Invariants of the stream loop *)

Lemma ask_started_inv (st : ui_state) : streaming_inv (ask_started st).
Proof. repeat split; try done. by left. Qed.

Lemma streaming_inv_frame (st st' : ui_state) :
  result st' = result st → error st' = error st →
  isStreaming st' = isStreaming st →
  streaming_inv st → streaming_inv st'.
Proof.
  unfold streaming_inv, result_shape. by intros -> -> ->.
Qed.

(** A branch that writes properties other than question into the record. *)
Lemma streaming_inv_record (st st' : ui_state) (m' : gmap string value) :
  result st' = VObj m' →
  get (VObj m') "question" = get (result st) "question" →
  error st' = error st → isStreaming st' = isStreaming st →
  streaming_inv st → streaming_inv st'.
Proof.
  unfold streaming_inv, result_shape.
  intros -> -> -> -> (Hshape & Hq & He). eauto.
Qed.

Lemma handle_data_inv (data : value) (st st' : ui_state) :
  handle_data data st = Some st' → streaming_inv st → streaming_inv st'.
Proof.
  rewrite handle_data_dispatch. intros H Hinv.
  destruct (nullish data); [done|].
  destruct (first_match dispatch_order data) as [b|] eqn:Hb;
    [|by simplify_eq].
  pose proof (first_match_test _ _ _ Hb) as Ht.
  destruct (first_match_object _ _ Hb) as [m ->].
  pose proof Hinv as (Hshape & Hq & He).
  destruct b; cbn [branch_effect] in H.
  - simplify_eq. by eapply (streaming_inv_frame st).
  - simplify_eq.
    destruct (on_chunk_frame (VObj m) st) as (H1 & H2 & _ & H3).
    by eapply (streaming_inv_frame st).
  - simplify_eq. by eapply (streaming_inv_frame st).
  - simplify_eq. eapply (streaming_inv_record st);
      [reflexivity| |reflexivity|reflexivity|exact Hinv].
    rewrite get_insert_ne by done. by apply get_spread.
  - simplify_eq. eapply (streaming_inv_record st);
      [reflexivity| |reflexivity|reflexivity|exact Hinv].
    rewrite !get_insert_ne by done. by apply get_spread_or.
  - simplify_eq. eapply (streaming_inv_record st);
      [reflexivity| |reflexivity|reflexivity|exact Hinv].
    rewrite get_insert_ne by done. by apply get_spread.
  - simplify_eq. eapply (streaming_inv_record st);
      [reflexivity| |reflexivity|reflexivity|exact Hinv].
    rewrite get_insert_ne by done. by apply get_spread.
  - unfold on_row_count in H.
    destruct (row_count_notice (VObj m)); [|done].
    destruct (truthy (get (VObj m) "auto_fixed")); simplify_eq.
    + eapply (streaming_inv_record st);
      [reflexivity| |reflexivity|reflexivity|exact Hinv].
      rewrite get_insert_ne by done. by apply get_spread_or.
    + by eapply (streaming_inv_frame st).
  - simplify_eq. unfold streaming_inv. repeat split; done.
  - simplify_eq. unfold streaming_inv, result_shape. repeat split; eauto; done.
  - destruct (includes_error (get (VObj m) "message")) as [[]|];
      simplify_eq; [|done].
    unfold streaming_inv. repeat split; done.
Qed.

Lemma process_line_inv ev (st : ui_state) (line : list N) :
  streaming_inv st → streaming_inv (process_line (ev, st) line).2.
Proof.
  intros Hst. unfold process_line.
  repeat case_match; cbn [snd]; try done.
  by eapply handle_data_inv.
Qed.

Lemma process_lines_inv ev (st : ui_state) (lines : list (list N)) :
  streaming_inv st → streaming_inv (process_lines (ev, st) lines).2.
Proof.
  revert ev st. induction lines as [|line lines IH]; intros ev st Hst; [done|].
  cbn [process_lines fold_left].
  pose proof (process_line_inv ev st line Hst) as H1.
  destruct (process_line (ev, st) line) as [ev1 st1]. by apply IH.
Qed.

(** ** Saving to the knowledge base *)

(** C8 (amended). saveToKnowledgeBase looks at the record only. When the
    record is unset or its sql or its question is not truthy, it issues no
    request and changes nothing (nothing is reported). Otherwise it issues
    exactly one request, to the sql-pairs address of the selected database,
    carrying the record's question and sql, whatever the streaming flag and
    the error are, and it leaves the record, the error and the streaming
    flag as they were. While an ask is streaming the record has no question,
    so a call made then issues no request. *)
Theorem save_guard (st : ui_state) (post : post_outcome) :
  (can_save st = false → saveToKnowledgeBase st post = ([], st))
  ∧ (can_save st = true →
     ∃ req st', saveToKnowledgeBase st post = ([req], st')
       ∧ req_url req = baseUrl ++ lit "/api/v1/databases/" ++ databaseId st
                       ++ lit "/knowledge-base/sql-pairs"
       ∧ get (req_body req) "question" = get (result st) "question"
       ∧ get (req_body req) "sql" = get (result st) "sql"
       ∧ result st' = result st
       ∧ error st' = error st
       ∧ isStreaming st' = isStreaming st)
  ∧ (∀ st0 ev lines,
       let s := (process_lines (ev, ask_started st0) lines).2 in
       isStreaming s = true → saveToKnowledgeBase s post = ([], s)).
Proof.
  assert (∀ s, can_save s = false → saveToKnowledgeBase s post = ([], s))
    as Hno.
  { intros s. unfold can_save, saveToKnowledgeBase.
    rewrite <- !negb_andb. by intros ->. }
  split; [apply Hno|]. split.
  - unfold can_save, saveToKnowledgeBase. rewrite <- !negb_andb.
    intros ->. cbn [negb]. eexists _, _. split; [done|].
    cbn [req_url req_body]. split; [done|].
    rewrite get_insert_ne, get_insert_eq by done.
    rewrite !get_insert_ne, get_insert_eq by done.
    destruct post as [|err]; [done|]. by destruct (to_string _).
  - intros st0 ev lines s Hs. apply Hno.
    destruct (process_lines_inv ev (ask_started st0) lines
                (ask_started_inv st0)) as (_ & Hq & _).
    unfold can_save. fold s in Hq. rewrite (Hq Hs).
    by rewrite andb_false_r.
Qed.

(** ** What is shown together *)

Lemma inv_not_both (st : ui_state) :
  streaming_inv st → shows_error st && shows_current_step st = false.
Proof.
  intros (_ & _ & He). unfold shows_error, shows_current_step.
  destruct (truthy (error st)); [|done]. by rewrite He.
Qed.

Lemma read_chunk_inv (r : reader) (chunk : list byte) :
  streaming_inv (ui r) → streaming_inv (ui (read_chunk r chunk)).
Proof.
  intros Hinv. unfold read_chunk.
  destruct (decode (decoder r) chunk) as [d text].
  pose proof (process_lines_inv (currentEvent r) (ui r)
                (pop_rest (split_lines (buffer r ++ text))) Hinv) as H.
  by destruct (process_lines _ _).
Qed.

Lemma catch_ask_inv (err : js_error) (st : ui_state) :
  streaming_inv st → streaming_inv (setLoading false (catch_ask err st)).
Proof. intros (Hshape & _ & _). by repeat split. Qed.

Lemma arrive_inv (f : in_flight) (e : arrival) :
  streaming_inv (cells f) → streaming_inv (cells (arrive f e)).
Proof.
  intros Hinv.
  destruct e as [a chunk|a|a err]; cbn [arrive];
    destruct (loop_of a f) as [l|]; try done; destruct a; cbn [with_loop cells].
  - by apply (read_chunk_inv (resume l (cells f))).
  - by apply (read_chunk_inv (resume l (cells f))).
  - by eapply (streaming_inv_frame (cells f)).
  - by eapply (streaming_inv_frame (cells f)).
  - by apply catch_ask_inv.
  - by apply catch_ask_inv.
Qed.

Lemma arrivals_inv (arrivals : list arrival) (f : in_flight) :
  streaming_inv (cells f) → streaming_inv (cells (fold_left arrive arrivals f)).
Proof.
  revert f. induction arrivals as [|e arrivals IH]; intros f Hinv; [done|].
  cbn [fold_left]. by apply IH, arrive_inv.
Qed.

(** C9 (amended). For an ask that passes validation, and until another
    ask is made: in every state it passes through while it processes the
    lines of its stream, and in the state it ends in, the error message and
    the streaming step indicator are never shown together, since every
    report of an error in the stream or by the catch block also ends the
    streaming display, and nothing in the ask starts it again; this holds
    as well while an earlier ask, which nothing cancels, is still
    delivering. An ask that validation rejects sets the error and nothing
    else: the step indicator is then shown next to it exactly when it was
    shown before. (The results panel is not part of this: it can be shown
    together with either.) *)
Theorem error_excludes_step_indicator (st : ui_state) (resp : fetch_outcome)
    (lines : list (list N)) (earlier : option loop_state)
    (arrivals : list arrival) :
  (let s := (process_lines (VNull, ask_started st) lines).2 in
   shows_error s && shows_current_step s = false)
  ∧ (asks st = true →
     let s := handleAsk st resp in
     shows_error s && shows_current_step s = false)
  ∧ (asks st = true →
     let s := ask_during earlier st arrivals in
     shows_error s && shows_current_step s = false)
  ∧ (asks st = false →
     let s := handleAsk st resp in
     shows_error s = true
     ∧ shows_current_step s = shows_current_step st
     ∧ shows_results s = shows_results st).
Proof.
  split; [|split; [|split]].
  - apply inv_not_both, process_lines_inv, ask_started_inv.
  - unfold asks, handleAsk. intros Hasks.
    apply negb_true_iff in Hasks. rewrite Hasks.
    assert (∀ err s, shows_error (setLoading false (catch_ask err s))
                     && shows_current_step (setLoading false (catch_ask err s))
                     = false) as Hcatch.
    { intros err s. unfold shows_current_step. cbn. apply andb_false_r. }
    destruct resp as [err|ok status body ending]; [apply Hcatch|].
    destruct ok; cbn [negb]; [|apply Hcatch].
    destruct ending as [|err]; [|apply Hcatch].
    rewrite ui_read_body.
    pose proof (process_lines_inv VNull (ask_started st)
                  (lines_of_reads (new_reader (ask_started st)) body)
                  (ask_started_inv st)) as Hinv.
    apply inv_not_both in Hinv. exact Hinv.
  - unfold asks, ask_during. intros Hasks.
    apply negb_true_iff in Hasks. rewrite Hasks.
    apply inv_not_both, arrivals_inv, ask_started_inv.
  - unfold asks, handleAsk. intros Hasks.
    apply negb_false_iff in Hasks. by rewrite Hasks.
Qed.

(** ** Validation and transport failures *)

Lemma trim_start_nil (s : list N) : trim_start s = [] ↔ all_space s = true.
Proof.
  unfold all_space. induction s as [|c s IH]; cbn; [done|].
  destruct (is_js_space c); cbn; [done|]. split; discriminate.
Qed.

Lemma trim_start_head (s t : list N) (c : N) :
  trim_start s = c :: t → is_js_space c = false.
Proof.
  induction s as [|x s IH]; cbn; [done|].
  destruct (is_js_space x) eqn:Hx; [done|]. by intros [= <- _].
Qed.

Lemma all_space_rev (s : list N) : all_space (rev s) = all_space s.
Proof.
  unfold all_space. induction s as [|c s IH]; [done|]. cbn.
  rewrite forallb_app, IH. cbn. rewrite andb_true_r. apply andb_comm.
Qed.

(** [s.trim()] is empty exactly when [s] is white space throughout. *)
Lemma trim_nil (s : list N) : trim s = [] ↔ all_space s = true.
Proof.
  unfold trim. split.
  - intros H. assert (trim_start (rev (trim_start s)) = []) as H'
      by (by destruct (trim_start (rev (trim_start s))) using rev_ind;
          [|rewrite rev_app_distr in H]).
    clear H. rename H' into H. apply trim_start_nil in H. rewrite all_space_rev in H.
    destruct (trim_start s) as [|c t] eqn:Hs; [by apply trim_start_nil|].
    apply trim_start_head in Hs. cbn in H. by rewrite Hs in H.
  - intros H. apply trim_start_nil in H. by rewrite H.
Qed.

Lemma asks_not_blank (st : ui_state) :
  asks st = true ↔
  all_space (question st) = false ∧ all_space (databaseId st) = false.
Proof.
  unfold asks. rewrite negb_true_iff, orb_false_iff, !bool_decide_eq_false.
  rewrite !trim_nil. by rewrite !not_true_iff_false.
Qed.

(** X1. An ask whose question or database id is empty or white space
    throughout is turned down before anything else happens: the validation
    message becomes the error, every other cell keeps its value (the record
    and the flags of an earlier ask included), and the response plays no
    part. *)
Theorem blank_input_rejected (st : ui_state) (resp : fetch_outcome) :
  all_space (question st) = true ∨ all_space (databaseId st) = true →
  handleAsk st resp =
  setError (VStr (lit "Please enter both a question and select a database")) st.
Proof.
  intros H. unfold handleAsk.
  destruct (asks st) eqn:Hasks.
  - apply asks_not_blank in Hasks as [Hq Hd]. destruct H; congruence.
  - unfold asks in Hasks. apply negb_false_iff in Hasks. by rewrite Hasks.
Qed.

Lemma truthy_js_or_r (a b : value) : truthy b = true → truthy (js_or a b) = true.
Proof. unfold js_or. by destruct (truthy a) eqn:Ha. Qed.

Lemma catch_ask_reports (err : js_error) (st : ui_state) :
  truthy (error (setLoading false (catch_ask err st))) = true
  ∧ isStreaming (setLoading false (catch_ask err st)) = false
  ∧ loading (setLoading false (catch_ask err st)) = false
  ∧ result (setLoading false (catch_ask err st)) = result st.
Proof.
  repeat split. cbn [error setLoading catch_ask setIsStreaming setError].
  by do 2 apply truthy_js_or_r.
Qed.

Lemma handleAsk_asks (st : ui_state) (resp : fetch_outcome) :
  asks st = true →
  handleAsk st resp =
  match resp with
  | FetchRejected err => setLoading false (catch_ask err (ask_started st))
  | FetchResponse ok status body ending =>
      if negb ok
      then setLoading false (catch_ask (http_error status) (ask_started st))
      else match ending with
           | ReadDone => setLoading false (ui (read_all (ask_started st) body))
           | ReadRejected err =>
               setLoading false (catch_ask err (ui (read_all (ask_started st) body)))
           end
  end.
Proof.
  unfold asks, handleAsk. intros H. apply negb_true_iff in H. by rewrite H.
Qed.

(** X2. Every transport failure of a started ask is reported: when [fetch]
    rejects, when the response is not ok, and when a read of the body
    rejects, the ask ends with a truthy error, with the streaming display
    ended and with loading off. The error is, for a rejection of [fetch] or
    of a read, the detail of the error's response data when that is truthy,
    else the error's message when that is truthy, else the text
    'An error occurred'; for a response that is not ok it is
    'HTTP error! status: ' followed by the status. *)
Theorem transport_failure_reported (st : ui_state) (resp : fetch_outcome) :
  asks st = true → transport_failed resp = true →
  truthy (error (handleAsk st resp)) = true
  ∧ isStreaming (handleAsk st resp) = false
  ∧ loading (handleAsk st resp) = false
  ∧ error (handleAsk st resp) =
    match resp with
    | FetchResponse false status _ _ =>
        VStr (lit "HTTP error! status: " ++ Number_toString status)
    | FetchRejected err | FetchResponse true _ _ (ReadRejected err) =>
        js_or (get (get (err_response err) "data") "detail")
          (js_or (err_message err) (VStr (lit "An error occurred")))
    | FetchResponse true _ _ ReadDone => VNull
    end.
Proof.
  intros Hasks Hfail. rewrite handleAsk_asks by done.
  destruct resp as [err|[] status body [|err]]; cbn in Hfail; try done;
    cbn [negb].
  - by destruct (catch_ask_reports err (ask_started st)) as (? & ? & ? & _).
  - by destruct (catch_ask_reports err (ui (read_all (ask_started st) body)))
      as (? & ? & ? & _).
Qed.

(** X3. The body of a response that is not ok is never read: whatever it
    holds and however it ends, the ask ends with no record and with the
    error 'HTTP error! status: ' followed by the status. When a read
    rejects later on, the record built from the frames read before it is
    kept beside the error. *)
Theorem failed_response_body_unread (st : ui_state) (status : float)
    (body : list (list byte)) (ending : stream_end) (err : js_error) :
  asks st = true →
  handleAsk st (FetchResponse false status body ending)
  = handleAsk st (FetchResponse false status [] ReadDone)
  ∧ result (handleAsk st (FetchResponse false status body ending)) = VNull
  ∧ error (handleAsk st (FetchResponse false status body ending))
    = VStr (lit "HTTP error! status: " ++ Number_toString status)
  ∧ result (handleAsk st (FetchResponse true status body (ReadRejected err)))
    = result (handleAsk st (FetchResponse true status body ReadDone)).
Proof.
  intros Hasks. rewrite !handleAsk_asks by done. by repeat split.
Qed.

Lemma resume_suspend (r : reader) : resume (suspend r) (ui r) = r.
Proof. by destruct r. Qed.

Lemma arrive_alone (body : list (list byte)) (r : reader) :
  fold_left arrive (Arrives Later <$> body)
    {| earlier_loop := None; later_loop := Some (suspend r); cells := ui r |}
  = {| earlier_loop := None;
       later_loop := Some (suspend (fold_left read_chunk body r));
       cells := ui (fold_left read_chunk body r) |}.
Proof.
  revert r. induction body as [|chunk body IH]; intros r; [done|].
  cbn [fmap list_fmap fold_left arrive loop_of later_loop cells with_loop
       earlier_loop].
  rewrite resume_suspend. apply IH.
Qed.

(** X4. A valid ask starts from a clean slate as far as the state cells go.
    Nothing cancels the ask before it, so what the new ask shows depends on
    what arrives after it has started, for itself and for an earlier ask
    that is still reading, and on what that earlier ask holds in its buffer
    and decoder. It depends on the question, the database id and the
    knowledge-base cells of the state it starts from, and not on the
    record, the error, the current step, the streamed reasoning, the flags
    or the open tab found there. With no earlier ask in flight and the
    arrivals of one response, this is [handleAsk] on that response. *)
Theorem ask_starts_clean (st1 st2 : ui_state) (earlier : option loop_state)
    (arrivals : list arrival) (resp : fetch_outcome) :
  asks st1 = true →
  question st1 = question st2 → databaseId st1 = databaseId st2 →
  savingToKB st1 = savingToKB st2 → kbMessage st1 = kbMessage st2 →
  unmounted st1 = unmounted st2 →
  ask_during earlier st1 arrivals = ask_during earlier st2 arrivals
  ∧ ask_during None st1 (arrivals_of Later resp) = handleAsk st1 resp
  ∧ handleAsk st1 resp = handleAsk st2 resp.
Proof.
  intros Hasks Hq Hd Hs Hk Hu.
  assert (asks st2 = true) as Hasks2
    by (unfold asks in *; by rewrite <- Hq, <- Hd).
  assert (ask_started st1 = ask_started st2) as Hstart
    by (destruct st1, st2; cbn in *; by subst).
  split; [|split].
  - unfold ask_during. unfold asks in Hasks, Hasks2.
    apply negb_true_iff in Hasks, Hasks2.
    by rewrite Hasks, Hasks2, Hstart.
  - rewrite handleAsk_asks by done. unfold ask_during.
    unfold asks in Hasks. apply negb_true_iff in Hasks. rewrite Hasks.
    destruct resp as [err|ok status body ending]; [done|].
    cbn [arrivals_of]. destruct (negb ok); [done|].
    rewrite fold_left_app.
    change new_loop with (suspend (new_reader (ask_started st1))).
    change (ask_started st1) with (ui (new_reader (ask_started st1))) at 2.
    rewrite arrive_alone. unfold read_all.
    by destruct ending.
  - rewrite (handleAsk_asks st1), (handleAsk_asks st2) by assumption.
    by rewrite Hstart.
Qed.

(** ** What the frames of a stream can and cannot change *)

(** A property of the state that every dispatch keeps holds after any
    lines. *)
Lemma process_lines_ind (P : ui_state → Prop) ev (st : ui_state)
    (lines : list (list N)) :
  (∀ data s s', handle_data data s = Some s' → P s → P s') →
  P st → P (process_lines (ev, st) lines).2.
Proof.
  intros Hstep. revert ev st.
  induction lines as [|line lines IH]; intros ev st Hst; [done|].
  cbn [process_lines fold_left].
  assert (P (process_line (ev, st) line).2) as H1.
  { unfold process_line. repeat case_match; cbn [snd]; try done.
    by eapply Hstep. }
  destruct (process_line (ev, st) line) as [ev1 st1]. by apply IH.
Qed.

Lemma handle_data_branch (data : value) (st st' : ui_state) :
  handle_data data st = Some st' →
  st' = st ∨ ∃ b, first_match dispatch_order data = Some b
                  ∧ branch_effect b data st = Some st'.
Proof.
  rewrite handle_data_dispatch. destruct (nullish data); [done|].
  destruct (first_match dispatch_order data) as [b|]; [eauto|].
  intros [= ->]. by left.
Qed.

(** X5. No frame restarts what has ended: over any lines of a stream,
    isStreaming once false stays false, loading once false stays false, and
    a component React has unmounted stays unmounted. *)
Theorem flags_never_raised ev (st : ui_state) (lines : list (list N)) :
  (isStreaming st = false → isStreaming (process_lines (ev, st) lines).2 = false)
  ∧ (loading st = false → loading (process_lines (ev, st) lines).2 = false)
  ∧ (unmounted st = true → unmounted (process_lines (ev, st) lines).2 = true).
Proof.
  repeat split; intros H0;
    apply (process_lines_ind (λ s, _ s = _)); try done;
    intros data s s' Hd Hs;
    (apply handle_data_branch in Hd as [->|(b & _ & Hd)]; [done|]);
    (destruct b; cbn [branch_effect] in Hd;
     try (unfold on_row_count in Hd;
          destruct (row_count_notice data); [|done];
          destruct (truthy (get data "auto_fixed")));
     try (destruct (includes_error (get data "message")) as [[]|]);
     simplify_eq; try done);
    unfold on_chunk; by destruct (js_add _ _).
Qed.

(** X6. The frames of a stream never touch what the user typed or the
    knowledge-base notice: over any lines, the question, the database id,
    savingToKB, kbMessage and the open tab keep their values. *)
Theorem stream_keeps_inputs ev (st : ui_state) (lines : list (list N)) :
  question (process_lines (ev, st) lines).2 = question st
  ∧ databaseId (process_lines (ev, st) lines).2 = databaseId st
  ∧ savingToKB (process_lines (ev, st) lines).2 = savingToKB st
  ∧ kbMessage (process_lines (ev, st) lines).2 = kbMessage st
  ∧ activeTab (process_lines (ev, st) lines).2 = activeTab st.
Proof.
  repeat split;
    apply (process_lines_ind (λ s, _ s = _ st)); try done;
    intros data s s' Hd Hs;
    (apply handle_data_branch in Hd as [->|(b & _ & Hd)]; [done|]);
    (destruct b; cbn [branch_effect] in Hd;
     try (unfold on_row_count in Hd;
          destruct (row_count_notice data); [|done];
          destruct (truthy (get data "auto_fixed")));
     try (destruct (includes_error (get data "message")) as [[]|]);
     simplify_eq; try done);
    unfold on_chunk; by destruct (js_add _ _).
Qed.

Lemma process_line_inert ev (st : ui_state) (line : list N) :
  inert_line line = true → (process_line (ev, st) line).2 = st.
Proof.
  unfold inert_line, is_data_line, is_blank, payload_of, process_line.
  intros H.
  destruct (bool_decide (trim line = [])); [done|].
  destruct (startsWith (lit "event:") line); [done|].
  destruct (startsWith (lit "data:") line); [|done].
  cbn [negb andb orb] in H.
  by destruct (JSON_parse (trim (substring 5 line))).
Qed.

(** X7. A line that is blank, is an event name, starts with neither marker
    (a comment, a keep-alive), or carries data that JSON.parse rejects is
    passed over: it changes nothing, and the lines after it are processed
    as if it had not been there. *)
Theorem inert_lines_skipped ev (st : ui_state) (lines : list (list N)) :
  (process_lines (ev, st) lines).2
  = (process_lines (ev, st)
       (List.filter (λ line, negb (inert_line line)) lines)).2.
Proof.
  generalize ev at 1. intros ev0. revert ev0 ev st.
  induction lines as [|line lines IH]; intros ev0 ev st; [done|].
  cbn [process_lines fold_left List.filter].
  destruct (inert_line line) eqn:Hin; cbn [negb].
  - pose proof (process_line_inert ev0 st line Hin) as H1.
    destruct (process_line (ev0, st) line) as [ev1 st1]. cbn [snd] in H1.
    subst st1. apply IH.
  - cbn [fold_left].
    pose proof (process_line_event_blind ev0 ev st line) as H1.
    destruct (process_line (ev0, st) line) as [ev1 st1].
    destruct (process_line (ev, st) line) as [ev2 st2]. cbn [snd] in H1.
    subst st2. apply IH.
Qed.

(** ** The record *)

(** X8. The sql, explanation and answer frames merge into the record: each
    writes the one property it is about (sql, sql_explanation,
    natural_language_answer) with the payload's value and keeps every other
    property the record had, and none of them touches the error, the flags
    or the streamed reasoning. *)
Theorem merging_frames_keep_rest (b : branch) (key : string) (data : value)
    (st : ui_state) :
  first_match dispatch_order data = Some b →
  merged_key b = Some key →
  result_shape st →
  ∃ st', handle_data data st = Some st'
    ∧ get (result st') key = get data (branch_field b)
    ∧ (∀ k, k ≠ key → get (result st') k = get (result st) k)
    ∧ error st' = error st
    ∧ isStreaming st' = isStreaming st
    ∧ loading st' = loading st
    ∧ streamingReasoning st' = streamingReasoning st.
Proof.
  intros Hb Hkey Hshape. destruct (first_match_object _ _ Hb) as [m ->].
  rewrite handle_data_dispatch, Hb. cbn [nullish].
  destruct b; try done; cbn in Hkey; simplify_eq; cbn [branch_effect];
    (eexists; split; [done|]);
    cbn [on_sql on_explanation on_answer result error isStreaming loading
         streamingReasoning setResult setCurrentStep branch_field];
    (split; [by rewrite get_insert_eq|]);
    (split; [|done]);
    intros k Hk; rewrite get_insert_ne by done; by apply get_spread.
Qed.

(** X9. A complete result is stored only when it carries none of the
    streamed fields: a payload that takes the query_id branch has no truthy
    step, chunk, reasoning, sql, attempts, explanation,
    natural_language_answer or error and no row_count. So right after it is
    stored the record has no sql: saveToKnowledgeBase would issue no
    request, and the Save to KB button is not shown. *)
Theorem complete_result_lacks_streamed_fields (data : value) (st : ui_state) :
  first_match dispatch_order data = Some BQueryId →
  (∀ b, b ∈ [BStep; BChunk; BReasoning; BSql; BAttempts; BExplanation;
             BAnswer; BError] →
        truthy (get data (branch_field b)) = false)
  ∧ get data "row_count" = VUndef
  ∧ ∃ st', handle_data data st = Some st'
      ∧ truthy (get (result st') "sql") = false
      ∧ can_save st' = false
      ∧ shows_save_button st' = false.
Proof.
  intros Hb.
  assert (truthy (get data "step") = false
          ∧ truthy (get data "chunk") = false
          ∧ truthy (get data "reasoning") = false
          ∧ truthy (get data "sql") = false
          ∧ truthy (get data "attempts") = false
          ∧ truthy (get data "explanation") = false
          ∧ truthy (get data "natural_language_answer") = false
          ∧ is_defined (get data "row_count") = false
          ∧ truthy (get data "error") = false)
    as (H1 & H2 & H3 & H4 & H5 & H6 & H7 & H8 & H9).
  { revert Hb. unfold first_match, dispatch_order.
    cbn [List.find branch_test branch_field].
    repeat match goal with
           | |- context [if ?c then _ else _] => destruct c; [done|]
           end.
    done. }
  split; [|split].
  - intros b Hin. repeat (apply elem_of_cons in Hin as [->|Hin]; [done|]).
    by apply elem_of_nil in Hin.
  - by destruct (get data "row_count").
  - destruct (first_match_object _ _ Hb) as [m ->].
    rewrite handle_data_dispatch, Hb. cbn [nullish branch_effect].
    eexists; split; [done|].
    unfold can_save, shows_save_button.
    cbn [on_query_id result setCurrentStep setLoading setIsStreaming setResult].
    rewrite H4. by rewrite !andb_false_r.
Qed.

Lemma streamed_key_lookup (m : gmap string value) (k : string) :
  dom m ⊆ streamed_keys → k ∉ streamed_keys → get (VObj m) k = VUndef.
Proof.
  clear baseUrl.
  intros Hdom Hk. cbn. rewrite (not_elem_of_dom_1 m k); [done|set_solver].
Qed.

Lemma streamed_record_insert (st : ui_state) (k : string) (v : value) :
  streamed_record st → k ∈ streamed_keys →
  dom (<[k:=v]> (spread (js_or (result st) (VObj ∅)))) ⊆ streamed_keys
  ∧ dom (<[k:=v]> (spread (result st))) ⊆ streamed_keys.
Proof.
  clear baseUrl.
  intros [->|(m & -> & Hm)] Hk; cbn [js_or truthy spread];
    rewrite !dom_insert_L; set_solver.
Qed.

(** While the streaming display is on, the record holds streamed properties
    only. *)
Lemma handle_data_streamed (data : value) (st st' : ui_state) :
  handle_data data st = Some st' →
  (isStreaming st = true → streamed_record st) →
  (isStreaming st' = true → streamed_record st').
Proof.
  clear baseUrl.
  intros Hd Hinv Hs'.
  apply handle_data_branch in Hd as [->|(b & Hb & Hd)]; [by apply Hinv|].
  assert (∀ k v, streamed_record st → k ∈ streamed_keys →
            streamed_record (setResult (VObj (<[k:=v]> (spread (result st)))) st)
            ∧ streamed_record
                (setResult
                   (VObj (<[k:=v]> (spread (js_or (result st) (VObj ∅))))) st))
    as Hins.
  { intros k v Hst Hk.
    destruct (streamed_record_insert st k v Hst Hk) as [H1 H2].
    split; right; eexists; by split. }
  assert ("sql"%string ∈ streamed_keys ∧ "metadata"%string ∈ streamed_keys
          ∧ "sql_explanation"%string ∈ streamed_keys
          ∧ "natural_language_answer"%string ∈ streamed_keys)
    as (Ksql & Kmeta & Kexp & Kans) by (unfold streamed_keys; set_solver).
  destruct b; cbn [branch_effect] in Hd; simplify_eq.
  - by apply Hinv.
  - destruct (on_chunk_frame data st) as (_ & H2 & _ & H3).
    unfold streamed_record. rewrite H3. apply Hinv. by rewrite <- H2.
  - by apply Hinv.
  - by apply (Hins "sql"%string); [apply Hinv|].
  - unfold on_attempts.
    destruct (Hinv Hs') as [Hr|(m & Hr & Hm)]; right; rewrite Hr;
      cbn [js_or truthy spread setResult result];
      eexists; (split; [done|]); rewrite !dom_insert_L; set_solver.
  - by apply (Hins "sql_explanation"%string); [apply Hinv|].
  - by apply (Hins "natural_language_answer"%string); [apply Hinv|].
  - unfold on_row_count in Hd. destruct (row_count_notice data); [|done].
    destruct (truthy (get data "auto_fixed")); simplify_eq.
    + by apply (Hins "metadata"%string); [apply Hinv|].
    + by apply Hinv.
  - destruct (includes_error (get data "message")) as [[]|]; simplify_eq;
      try (by apply Hinv); by cbn in Hs'.
Qed.

(** X10. While the streaming display of an ask is on, the record is unset
    or holds streamed properties only (sql, metadata, sql_explanation,
    natural_language_answer): it has no query id, no question and no
    execution result, and the Save to KB button is not shown. *)
Theorem streaming_record_keys ev (st0 : ui_state) (lines : list (list N)) :
  isStreaming (process_lines (ev, ask_started st0) lines).2 = true →
  streamed_record (process_lines (ev, ask_started st0) lines).2
  ∧ (∀ k, k ∉ streamed_keys →
          get (result (process_lines (ev, ask_started st0) lines).2) k = VUndef)
  ∧ shows_save_button (process_lines (ev, ask_started st0) lines).2 = false.
Proof.
  clear baseUrl. intros Hs.
  assert (streamed_record (process_lines (ev, ask_started st0) lines).2) as Hrec.
  { revert Hs.
    apply (process_lines_ind (λ s, isStreaming s = true → streamed_record s)).
    - intros data s s'. apply handle_data_streamed.
    - intros _. by left. }
  assert (∀ k, k ∉ streamed_keys →
            get (result (process_lines (ev, ask_started st0) lines).2) k = VUndef)
    as Hkeys.
  { intros k Hk. destruct Hrec as [->|(m & -> & Hm)]; [done|].
    by apply streamed_key_lookup. }
  repeat split; [done..|]. unfold shows_save_button.
  rewrite (Hkeys "execution_result"%string)
    by (unfold streamed_keys; set_solver).
  apply andb_false_r.
Qed.

Lemma handle_data_no_reasoning (data : value) (st st' : ui_state) :
  handle_data data st = Some st' →
  result_shape st ∧ truthy (get (result st) "reasoning") = false →
  result_shape st' ∧ truthy (get (result st') "reasoning") = false.
Proof.
  intros Hd [Hshape Hr].
  apply handle_data_branch in Hd as [->|(b & Hb & Hd)]; [done|].
  assert (∀ k v, k ≠ "reasoning"%string →
            truthy (get (VObj (<[k:=v]> (spread (result st)))) "reasoning") = false
            ∧ truthy (get (VObj (<[k:=v]> (spread (js_or (result st) (VObj ∅)))))
                        "reasoning") = false) as Hins.
  { intros k v Hk. rewrite !get_insert_ne by done.
    by rewrite get_spread, get_spread_or. }
  destruct b; cbn [branch_effect] in Hd; simplify_eq.
  - done.
  - destruct (on_chunk_frame data st) as (_ & _ & _ & H3).
    unfold result_shape. by rewrite H3.
  - done.
  - split; [right; by eexists|]. by apply Hins.
  - split; [right; by eexists|]. unfold on_attempts. cbn [result setResult].
    rewrite get_insert_ne by done. by apply Hins.
  - split; [right; by eexists|]. by apply Hins.
  - split; [right; by eexists|]. by apply Hins.
  - unfold on_row_count in Hd. destruct (row_count_notice data); [|done].
    destruct (truthy (get data "auto_fixed")); simplify_eq; [|done].
    split; [right; by eexists|]. by apply Hins.
  - done.
  - destruct (first_match_object _ _ Hb) as [m ->].
    split; [right; by eexists|].
    cbn [on_query_id result setCurrentStep setLoading setIsStreaming setResult].
    revert Hb. unfold first_match, dispatch_order.
    cbn [List.find branch_test branch_field].
    repeat match goal with
           | |- context [if ?c then _ else _] => destruct c eqn:?; [done|]
           end.
    done.
  - destruct (includes_error (get data "message")) as [[]|]; by simplify_eq.
Qed.

(** X11. The record of an ask never holds a reasoning text: a payload with
    a truthy reasoning takes the reasoning branch, never the query_id
    branch, and no other branch writes that property. So in every state an
    ask passes through the reasoning tab shows the streamed reasoning. *)
Theorem reasoning_tab_shows_stream ev (st0 : ui_state)
    (lines : list (list N)) :
  truthy (get (result (process_lines (ev, ask_started st0) lines).2)
            "reasoning") = false
  ∧ shown_reasoning (process_lines (ev, ask_started st0) lines).2
    = streamingReasoning (process_lines (ev, ask_started st0) lines).2.
Proof.
  assert (result_shape (process_lines (ev, ask_started st0) lines).2
          ∧ truthy (get (result (process_lines (ev, ask_started st0) lines).2)
                      "reasoning") = false) as [_ H].
  { apply (process_lines_ind
             (λ s, result_shape s ∧ truthy (get (result s) "reasoning") = false)).
    - intros data s s'. apply handle_data_no_reasoning.
    - split; [by left|done]. }
  split; [done|]. unfold shown_reasoning, js_or. by rewrite H.
Qed.

(** ** The decoder and the line buffer *)

Lemma split_lines_no_lf (s : list N) : Forall (λ line, 10 ∉ line) (split_lines s).
Proof.
  induction s as [|c s IH]; cbn [split_lines].
  - repeat constructor. apply not_elem_of_nil.
  - destruct (c =? 10) eqn:Hc.
    + constructor; [apply not_elem_of_nil|done].
    + pose proof (split_lines_nonempty s) as Hne.
      destruct (split_lines s) as [|l ls]; [done|].
      apply Forall_cons in IH as [Hl Hls]. constructor; [|done].
      apply N.eqb_neq in Hc. rewrite not_elem_of_cons. split; [done|done].
Qed.

Lemma split_lines_single (s : list N) : 10 ∉ s → split_lines s = [s].
Proof.
  induction s as [|c s IH]; [done|]. rewrite not_elem_of_cons. intros [Hc Hs].
  cbn [split_lines]. apply not_eq_sym, N.eqb_neq in Hc. rewrite Hc.
  by rewrite (IH Hs).
Qed.

Lemma pop_last_no_lf (s : list N) : 10 ∉ pop_last (split_lines s).
Proof.
  pose proof (split_lines_no_lf s) as H.
  pose proof (split_lines_nonempty s) as Hne.
  unfold pop_last. induction (split_lines s) as [|l ls IH]; [done|].
  apply Forall_cons in H as [Hl Hls].
  destruct ls as [|l' ls]; [done|]. by apply IH.
Qed.

Lemma terminated_cons (l : list N) (ls : list (list N)) :
  terminated (l :: ls) = l ++ 10 :: terminated ls.
Proof. unfold terminated. cbn. by rewrite <- app_assoc. Qed.

Lemma terminated_split (s : list N) :
  terminated (pop_rest (split_lines s)) ++ pop_last (split_lines s) = s.
Proof.
  induction s as [|c s IH]; [done|].
  pose proof (split_lines_nonempty s) as Hne. cbn [split_lines].
  destruct (c =? 10) eqn:Hc.
  - apply N.eqb_eq in Hc as ->.
    rewrite pop_rest_cons, pop_last_cons, terminated_cons by done.
    cbn [app]. by rewrite IH.
  - destruct (split_lines s) as [|l [|l' ls]]; [done| |].
    + cbn in IH. subst s. done.
    + rewrite pop_rest_cons, pop_last_cons in IH by done.
      rewrite pop_rest_cons, pop_last_cons by done.
      rewrite terminated_cons in IH. rewrite terminated_cons.
      by subst s.
Qed.

Lemma land_63_nonzero (b : N) : 144 ≤ b → b ≤ 191 → N.land b 63 ≠ 0.
Proof.
  intros Hlo Hhi. change 63 with (N.ones 6). rewrite N.land_ones.
  change (2 ^ 6) with 64. intros H.
  pose proof (N.div_mod b 64 ltac:(done)) as Hdm. rewrite H in Hdm. lia.
Qed.

Lemma lor_shift_nonzero (cp x : N) : cp ≠ 0 → N.lor (N.shiftl cp 6) x ≠ 0.
Proof.
  intros Hcp H. apply N.lor_eq_0_iff in H as [H _].
  by apply N.shiftl_eq_0_iff in H.
Qed.

Lemma land_ones_zero (b k : N) : N.land b (N.ones k) = 0 → b = 2 ^ k * (b / 2 ^ k).
Proof.
  rewrite N.land_ones. intros H.
  pose proof (N.div_mod b (2 ^ k)) as Hdm. rewrite H in Hdm.
  rewrite N.add_0_r in Hdm. apply Hdm. by apply N.pow_nonzero.
Qed.

(** A leading byte leaves the decoder in one of its states, or as it was. *)
Lemma utf8_lead_wf (d : utf8_decoder) (b : N) :
  utf8_wf (utf8_lead d b).1 ∨ (utf8_lead d b).1 = d.
Proof.
  unfold utf8_lead.
  destruct (b <=? 127); [by right|].
  destruct ((194 <=? b) && (b <=? 223)) eqn:H2.
  { apply andb_true_iff in H2 as [Ha Hb]. apply N.leb_le in Ha, Hb.
    left. right. left. cbn. intros Hz.
    apply (land_ones_zero b 5) in Hz. change (2 ^ 5) with 32 in Hz. lia. }
  destruct ((224 <=? b) && (b <=? 239)) eqn:H3.
  { apply andb_true_iff in H3 as [Ha Hb]. apply N.leb_le in Ha, Hb.
    left. destruct (N.eq_dec (N.land b 15) 0) as [Hz|Hz]; [|by right; left].
    right. right.
    apply (land_ones_zero b 4) in Hz. change (2 ^ 4) with 16 in Hz.
    assert (b = 224) as -> by lia. cbn. lia. }
  destruct ((240 <=? b) && (b <=? 244)) eqn:H4; [|by right].
  apply andb_true_iff in H4 as [Ha Hb]. apply N.leb_le in Ha, Hb.
  left. destruct (N.eq_dec (N.land b 7) 0) as [Hz|Hz]; [|by right; left].
  right. right.
  apply (land_ones_zero b 3) in Hz. change (2 ^ 3) with 8 in Hz.
  assert (b = 240) as -> by lia. cbn. lia.
Qed.

Lemma utf8_lead_no_lf (d : utf8_decoder) (b : N) :
  b ≠ 10 → 10 ∉ (utf8_lead d b).2.
Proof.
  clear baseUrl.
  intros Hb. unfold utf8_lead. repeat case_match; cbn [snd];
    rewrite ?elem_of_cons, ?elem_of_nil; naive_solver lia.
Qed.

Lemma utf8_reset_wf (d : utf8_decoder) : utf8_wf (utf8_reset d).
Proof. by left. Qed.

(** Every byte leaves the decoder in one of its states. *)
Lemma utf8_handler_wf (d : utf8_decoder) (b : N) :
  utf8_wf d → utf8_wf (utf8_handler d b).1.
Proof.
  intros Hwf. unfold utf8_handler.
  destruct (bytes_needed d =? 0) eqn:Hn.
  { destruct (utf8_lead_wf d b) as [H| ->]; done. }
  apply N.eqb_neq in Hn.
  destruct (negb ((lower_boundary d <=? b) && (b <=? upper_boundary d))) eqn:Hr.
  { destruct (utf8_lead_wf (utf8_reset d) b) as [H|H];
      destruct (utf8_lead (utf8_reset d) b) as [d' out]; cbn [fst] in *;
      [done|subst d'; apply utf8_reset_wf]. }
  apply negb_false_iff, andb_true_iff in Hr as [Ha Hb].
  apply N.leb_le in Ha, Hb.
  destruct (bytes_seen d + 1 =? bytes_needed d); cbn [fst];
    [apply utf8_reset_wf|].
  right. left. cbn.
  destruct Hwf as [H|[H|(H1 & H2 & H3 & H4)]]; [done| |].
  - by apply lor_shift_nonzero.
  - intros Hz. apply N.lor_eq_0_iff in Hz as [_ Hz].
    by apply (land_63_nonzero b); [lia|lia|].
Qed.

(** A byte other than the line feed makes the decoder complete no line
    feed. *)
Lemma utf8_handler_no_lf (d : utf8_decoder) (b : N) :
  utf8_wf d → b ≠ 10 → 10 ∉ (utf8_handler d b).2.
Proof.
  clear JSON_parse Number_toString baseUrl.
  intros Hwf Hb. unfold utf8_handler.
  destruct (bytes_needed d =? 0) eqn:Hn; [by apply utf8_lead_no_lf|].
  apply N.eqb_neq in Hn.
  destruct (negb ((lower_boundary d <=? b) && (b <=? upper_boundary d))) eqn:Hr.
  { pose proof (utf8_lead_no_lf (utf8_reset d) b Hb) as H.
    destruct (utf8_lead (utf8_reset d) b) as [d' out]; cbn [snd] in *.
    rewrite elem_of_cons. naive_solver lia. }
  apply negb_false_iff, andb_true_iff in Hr as [Ha Hc].
  apply N.leb_le in Ha, Hc.
  destruct (bytes_seen d + 1 =? bytes_needed d) eqn:Hfin; cbn [snd];
    [|apply not_elem_of_nil].
  apply N.eqb_eq in Hfin.
  rewrite elem_of_cons, elem_of_nil. intros [Hz|[]].
  assert (N.testbit 10 6 = false) as Hbit by done.
  destruct Hwf as [H|[H|(H1 & H2 & H3 & H4)]]; [done| |lia].
  assert (N.shiftr (N.lor (N.shiftl (code_point d) 6) (N.land b 63)) 6
          = code_point d) as Hsh.
  { rewrite N.shiftr_lor, N.shiftr_shiftl_l, N.sub_diag, N.shiftl_0_r by done.
    change 63 with (N.ones 6). rewrite N.land_ones, N.shiftr_div_pow2.
    rewrite N.div_small by (apply N.mod_lt; done). apply N.lor_0_r. }
  rewrite <- Hz in Hsh. by cbn in Hsh.
Qed.

Lemma utf16_units_no_lf (cp : N) : cp ≠ 10 → 10 ∉ utf16_units cp.
Proof.
  clear baseUrl.
  intros Hcp. unfold utf16_units. destruct (cp <? 65536);
    rewrite ?elem_of_cons, ?elem_of_nil; naive_solver lia.
Qed.

Lemma utf8_output_spec (d : utf8_decoder) (cps : list N) :
  (utf8_wf d → utf8_wf (utf8_output d cps).1)
  ∧ (10 ∉ cps → 10 ∉ (utf8_output d cps).2).
Proof.
  clear baseUrl.
  revert d. induction cps as [|cp cps IH]; intros d; [split; [done|]|].
  { intros _. apply not_elem_of_nil. }
  cbn [utf8_output].
  match goal with
  | |- context [utf8_output ?d1 cps] =>
      destruct (IH d1) as [IHwf IHlf];
      destruct (utf8_output d1 cps) as [d2 out] eqn:Hout
  end.
  cbn [fst snd] in *. split.
  - intros Hwf. assert (utf8_wf d2) by (apply IHwf; exact Hwf).
    by destruct (negb (bom_seen d) && (cp =? 65279)).
  - rewrite not_elem_of_cons. intros [Hcp Hcps].
    destruct (negb (bom_seen d) && (cp =? 65279)); cbn [snd]; [by apply IHlf|].
    rewrite elem_of_app. intros [H|H]; [|by apply IHlf].
    by apply (utf16_units_no_lf cp).
Qed.

Lemma decode_byte_spec (d : utf8_decoder) (b : byte) :
  utf8_wf d →
  utf8_wf (decode_byte d b).1
  ∧ (b ≠ x0a → 10 ∉ (decode_byte d b).2).
Proof.
  clear JSON_parse Number_toString baseUrl.
  intros Hwf. unfold decode_byte.
  pose proof (utf8_handler_wf d (Byte.to_N b) Hwf) as H1.
  pose proof (utf8_handler_no_lf d (Byte.to_N b) Hwf) as H2.
  destruct (utf8_handler d (Byte.to_N b)) as [d1 cps]. cbn [fst snd] in *.
  destruct (utf8_output_spec d1 cps) as [H3 H4]. split; [by apply H3|].
  intros Hb. apply H4, H2. intros Hn. apply Hb.
  apply (f_equal Byte.of_N) in Hn. rewrite Byte.of_to_N in Hn.
  by injection Hn.
Qed.

(** The decoder stays in one of its states over any chunk, and puts out a
    line feed only for a line feed byte. *)
Lemma decode_spec (d : utf8_decoder) (chunk : list byte) :
  utf8_wf d →
  utf8_wf (decode d chunk).1
  ∧ (x0a ∉ chunk → 10 ∉ (decode d chunk).2).
Proof.
  clear JSON_parse Number_toString baseUrl.
  revert d. induction chunk as [|b chunk IH]; intros d Hwf.
  { split; [done|]. intros _. apply not_elem_of_nil. }
  cbn [decode]. destruct (decode_byte_spec d b Hwf) as [H1 H2].
  destruct (decode_byte d b) as [d1 out1]. cbn [fst snd] in *.
  destruct (IH d1 H1) as [H3 H4].
  destruct (decode d1 chunk) as [d2 out2]. cbn [fst snd] in *.
  split; [done|]. rewrite not_elem_of_cons, elem_of_app.
  intros [Hb Hc] [H|H]; [by apply H2|by apply H4].
Qed.

Lemma new_reader_wf (st : ui_state) : reader_wf (new_reader st).
Proof. split; [apply not_elem_of_nil|by left]. Qed.

Lemma read_chunk_wf (r : reader) (chunk : list byte) :
  reader_wf r → reader_wf (read_chunk r chunk).
Proof.
  clear baseUrl. intros [Hbuf Hdec]. unfold read_chunk.
  destruct (decode_spec (decoder r) chunk Hdec) as [Hwf _].
  destruct (decode (decoder r) chunk) as [d text].
  destruct (process_lines _ _) as [ev st]. split; [|done].
  apply pop_last_no_lf.
Qed.

Lemma read_all_wf (st : ui_state) (body : list (list byte)) :
  reader_wf (read_all st body).
Proof.
  unfold read_all. generalize (new_reader_wf st). generalize (new_reader st).
  induction body as [|c body IH]; intros r Hr; [done|].
  cbn [fold_left]. by apply IH, read_chunk_wf.
Qed.

(** A chunk without a line feed byte hands no line to the loop. *)
Lemma read_chunk_no_lf (r : reader) (chunk : list byte) :
  reader_wf r → x0a ∉ chunk →
  ui (read_chunk r chunk) = ui r
  ∧ currentEvent (read_chunk r chunk) = currentEvent r
  ∧ lines_of_read r chunk = [].
Proof.
  clear baseUrl. intros [Hbuf Hdec] Hlf. unfold read_chunk, lines_of_read.
  destruct (decode_spec (decoder r) chunk Hdec) as [_ Htext].
  destruct (decode (decoder r) chunk) as [d text]. cbn [snd] in *.
  rewrite split_lines_single; [done|].
  rewrite elem_of_app. intros [H|H]; [done|by apply Htext].
Qed.

(** X12. A frame is dispatched only once its line feed has arrived: the
    bytes a body ends with after its last line feed are never processed.
    A body followed by one more chunk that holds no line feed byte ends the
    ask in the same state as the body alone, however the body was cut into
    chunks and whatever character the decoder was in the middle of. *)
Theorem unterminated_tail_dropped (st : ui_state) (status : float)
    (body : list (list byte)) (tail : list byte) (ending : stream_end) :
  x0a ∉ tail →
  handleAsk st (FetchResponse true status (body ++ [tail]) ending)
  = handleAsk st (FetchResponse true status body ending)
  ∧ lines_of_reads (new_reader (ask_started st)) (body ++ [tail])
    = lines_of_reads (new_reader (ask_started st)) body.
Proof.
  intros Hlf.
  destruct (read_chunk_no_lf (read_all (ask_started st) body) tail
              (read_all_wf _ _) Hlf) as (Hui & _ & Hlines).
  split.
  - unfold handleAsk. rewrite fold_left_app. cbn [fold_left].
    fold (read_all (ask_started st) body). by rewrite Hui.
  - rewrite !lines_of_body, concat_app. cbn [concat]. rewrite app_nil_r.
    change (pop_rest (split_lines (decode new_TextDecoder (concat body ++ tail)).2))
      with (lines_of_read (new_reader (ask_started st)) (concat body ++ tail)).
    rewrite <- lines_of_read_app.
    change (lines_of_read (new_reader (ask_started st)) (concat body))
      with (pop_rest (split_lines (decode new_TextDecoder (concat body)).2)).
    rewrite <- (read_body (ask_started st) body).
    fold (read_all (ask_started st) body). rewrite Hlines. apply app_nil_r.
Qed.

(** X13. The line splitter loses nothing and repeats nothing: after the
    reads of a body, the lines handed to the loop, each followed by its line
    feed, followed by the text left in the buffer, are exactly the decoded
    text of the body; no line handed to the loop contains a line feed, and
    neither does the buffer. *)
Theorem lines_and_buffer_are_the_text (st : ui_state)
    (body : list (list byte)) :
  terminated (lines_of_reads (new_reader st) body)
  ++ buffer (read_all st body)
  = (decode new_TextDecoder (concat body)).2
  ∧ Forall (λ line, 10 ∉ line) (lines_of_reads (new_reader st) body)
  ∧ 10 ∉ buffer (read_all st body).
Proof.
  unfold read_all. rewrite lines_of_body, read_body. unfold read_chunk.
  cbn [new_reader buffer decoder currentEvent ui app].
  destruct (decode new_TextDecoder (concat body)) as [d text]. cbn [snd].
  destruct (process_lines _ _) as [ev st']. cbn [buffer].
  split; [apply terminated_split|]. split; [|apply pop_last_no_lf].
  pose proof (split_lines_no_lf text) as H.
  pose proof (split_lines_nonempty text) as Hne. unfold pop_rest.
  induction (split_lines text) as [|l ls IH]; [done|].
  apply Forall_cons in H as [Hl Hls].
  destruct ls as [|l' ls]; [constructor|].
  cbn [removelast]. constructor; [done|]. by apply IH.
Qed.

(** X14. ASCII passes through the decoder unchanged: when no character is
    in progress, a chunk of bytes below 128 decodes to those very bytes as
    code units and leaves no character in progress, whatever was decoded
    before. *)
Theorem decode_ascii (d : utf8_decoder) (chunk : list byte) :
  bytes_needed d = 0 →
  Forall (λ b, Byte.to_N b < 128) chunk →
  (decode d chunk).2 = Byte.to_N <$> chunk
  ∧ bytes_needed (decode d chunk).1 = 0.
Proof.
  revert d. induction chunk as [|b chunk IH]; intros d Hd Hall; [done|].
  apply Forall_cons in Hall as [Hb Hall].
  cbn [decode]. unfold decode_byte, utf8_handler, utf8_lead.
  rewrite Hd. cbn [N.eqb].
  assert ((Byte.to_N b <=? 127) = true) as -> by (apply N.leb_le; lia).
  cbn [utf8_output].
  assert ((Byte.to_N b =? 65279) = false) as -> by (apply N.eqb_neq; lia).
  rewrite andb_false_r. unfold utf16_units.
  assert ((Byte.to_N b <? 65536) = true) as -> by (apply N.ltb_lt; lia).
  match goal with
  | |- context [decode ?d1 chunk] =>
      destruct (IH d1 Hd Hall) as [IH1 IH2];
      destruct (decode d1 chunk) as [d2 out2]
  end.
  cbn [fst snd] in *. by rewrite IH1.
Qed.

(** ** Saving, and the list of databases *)

(** X15. A save that passes the guard always lets go of savingToKB and
    tells its outcome in the notice: type 'success' when the request
    resolves; type 'error' with the server's detail (else the error's
    message) after 'Failed to save: ' when it rejects. The request carries
    the selected database id, and the record's explanation as description
    (null when there is none). The save changes nothing of the ask: question,
    database id, loading, current step and streamed reasoning stay as they
    were. *)
Theorem save_reports_outcome (st : ui_state) (post : post_outcome) :
  can_save st = true →
  savingToKB (saveToKnowledgeBase st post).2 = false
  ∧ (post = PostResolved →
     get (kbMessage (saveToKnowledgeBase st post).2) "type" = VStr (lit "success"))
  ∧ (∀ err detail,
       post = PostRejected err →
       to_string (js_or (get (get (err_response err) "data") "detail")
                    (err_message err)) = Some detail →
       kbMessage (saveToKnowledgeBase st post).2
       = VObj (<["type"%string := VStr (lit "error")]>
               (<["text"%string :=
                    VStr (mark_failed ++ lit " Failed to save: " ++ detail)]> ∅)))
  ∧ (∀ req, (saveToKnowledgeBase st post).1 = [req] →
       get (req_body req) "database_id" = VStr (databaseId st)
       ∧ get (req_body req) "description"
         = js_or (get (result st) "sql_explanation") VNull)
  ∧ question (saveToKnowledgeBase st post).2 = question st
  ∧ databaseId (saveToKnowledgeBase st post).2 = databaseId st
  ∧ loading (saveToKnowledgeBase st post).2 = loading st
  ∧ currentStep (saveToKnowledgeBase st post).2 = currentStep st
  ∧ streamingReasoning (saveToKnowledgeBase st post).2 = streamingReasoning st.
Proof.
  unfold can_save, saveToKnowledgeBase. rewrite <- !negb_andb.
  intros ->. cbn [negb fst snd].
  split; [done|]. split; [by intros ->|]. split.
  { intros err detail -> Hd. by rewrite Hd. }
  split.
  { intros req [= <-]. cbn [req_body]. split; [by rewrite get_insert_eq|].
    by rewrite !get_insert_ne, get_insert_eq by done. }
  destruct post as [|err]; [done|]. by destruct (to_string _).
Qed.

(** X16. The list of databases is never unset by a fetch: a rejected
    request, or a response without data, leaves the list as it was; a
    response whose data has no databases (or a falsy one) gives the empty
    list; so a list that is truthy stays truthy. *)
Theorem fetchDatabases_keeps_a_list (databases : value) (o : get_outcome) :
  (truthy databases = true → truthy (fetchDatabases databases o) = true)
  ∧ (o = GetRejected → fetchDatabases databases o = databases)
  ∧ (∀ response,
       o = GetResolved response →
       (nullish (get response "data") = true →
        fetchDatabases databases o = databases)
       ∧ (nullish (get response "data") = false →
          truthy (get (get response "data") "databases") = false →
          fetchDatabases databases o = VArr [])
       ∧ (truthy (get (get response "data") "databases") = true →
          fetchDatabases databases o = get (get response "data") "databases")).
Proof.
  split; [|split].
  - intros Hd. destruct o as [response|]; [|done]. cbn.
    destruct (nullish response || nullish (get response "data")); [done|].
    by apply truthy_js_or_r.
  - by intros ->.
  - intros response ->. cbn. repeat split.
    + intros ->. by rewrite orb_true_r.
    + intros Hn Hf. destruct response; try done. cbn [nullish orb].
      rewrite Hn. unfold js_or. by rewrite Hf.
    + intros Ht. destruct response; try done.
      destruct (get (VObj m) "data") eqn:Hdata; try done;
        cbn [nullish orb]; unfold js_or; by rewrite Ht.
Qed.

(** ** Repeated and reordered frames *)

Lemma insert_twice (m : gmap string value) (k : string) (v : value) :
  <[k:=v]> (<[k:=v]> m) = <[k:=v]> m.
Proof. apply insert_insert_eq. Qed.

Lemma fixed_metadata_again (r n : value) (m : gmap string value) :
  fixed_metadata (VObj (<["metadata"%string := fixed_metadata r n]> m)) n
  = fixed_metadata r n.
Proof.
  unfold fixed_metadata at 1 3. rewrite get_insert_eq.
  unfold fixed_metadata. cbn [js_or truthy spread]. f_equal.
  apply map_eq. intros i. rewrite !lookup_insert. by repeat case_decide.
Qed.

Lemma merged_again (r n v : value) (m : gmap string value) :
  <["metadata"%string := fixed_metadata r n]>
    (<["sql"%string := v]>
       (<["metadata"%string := fixed_metadata r n]> (<["sql"%string := v]> m)))
  = <["metadata"%string := fixed_metadata r n]> (<["sql"%string := v]> m).
Proof.
  apply map_eq. intros i. rewrite !lookup_insert. by repeat case_decide.
Qed.

(** X17. A frame that replaces what it writes can be delivered twice
    without harm: for every payload that takes a branch other than the
    chunk branch, applying it a second time right after the first leaves
    the state exactly as the first application left it. (A chunk appends,
    so a repeated chunk shows twice.) *)
Theorem replacing_frames_idempotent (b : branch) (data : value)
    (st st' : ui_state) :
  first_match dispatch_order data = Some b → b ≠ BChunk →
  handle_data data st = Some st' →
  handle_data data st' = Some st'.
Proof.
  intros Hb Hchunk. destruct (first_match_object _ _ Hb) as [m ->].
  rewrite !handle_data_dispatch, Hb. cbn [nullish].
  destruct b; try done; cbn [branch_effect]; intros Hd; simplify_eq;
    try reflexivity.
  - unfold on_sql. cbn [result setResult spread]. by rewrite insert_twice.
  - unfold on_attempts. cbn [result setResult spread js_or truthy].
    rewrite fixed_metadata_again. by rewrite merged_again.
  - unfold on_explanation.
    cbn [result setResult setCurrentStep spread]. by rewrite insert_twice.
  - unfold on_answer.
    cbn [result setResult setCurrentStep spread]. by rewrite insert_twice.
  - unfold on_row_count in *.
    destruct (row_count_notice (VObj m)) as [text|]; [|done].
    destruct (truthy (get (VObj m) "auto_fixed")); simplify_eq; [|done].
    cbn [result setResult setCurrentStep spread js_or truthy].
    rewrite fixed_metadata_again. by rewrite insert_twice.
  - destruct (includes_error (get (VObj m) "message")) as [[]|];
      by simplify_eq.
Qed.

(** X18. The sql, explanation and answer frames can arrive in any order:
    two payloads that take two different branches among these three leave
    the same state whichever is applied first. *)
Theorem merging_frames_commute (b1 b2 : branch) (k1 k2 : string)
    (d1 d2 : value) (st : ui_state) :
  first_match dispatch_order d1 = Some b1 → merged_key b1 = Some k1 →
  first_match dispatch_order d2 = Some b2 → merged_key b2 = Some k2 →
  b1 ≠ b2 →
  ∃ s1 s2 s12 s21,
    handle_data d1 st = Some s1 ∧ handle_data d2 s1 = Some s12
    ∧ handle_data d2 st = Some s2 ∧ handle_data d1 s2 = Some s21
    ∧ s12 = s21.
Proof.
  intros Hb1 Hk1 Hb2 Hk2 Hne.
  destruct (first_match_object _ _ Hb1) as [m1 ->].
  destruct (first_match_object _ _ Hb2) as [m2 ->].
  rewrite !handle_data_dispatch, Hb1, Hb2. cbn [nullish].
  destruct b1; try done; destruct b2; try done; cbn [branch_effect];
    eexists _, _, _, _;
    (split; [reflexivity|]);
    rewrite !handle_data_dispatch, ?Hb1, ?Hb2; cbn [nullish branch_effect];
    (split; [reflexivity|]); (split; [reflexivity|]);
    (split; [reflexivity|]);
    unfold on_sql, on_explanation, on_answer;
    cbn [result setResult setCurrentStep spread].
  all: by rewrite insert_insert_ne.
Qed.



End Handler.

(** ** The properties on concrete payloads and streams *)

(** An ask on the example component, over a body that ends normally. *)
Abbreviation example_ask chunks :=
  (handleAsk example_parse example_Number_toString ready (ok_body chunks)).

(** C1 (the failing input). The payload {attempts:2, sql:'SELECT 1 FIX'}
    after the frame {sql:'SELECT 1'}: the specification selects the attempts
    update, the chain takes the sql branch. The record gets the second sql
    and no metadata, also when the two frames are read from a body. *)
Lemma sql_test_shadows_attempts_witness :
  spec_select payload_fixed = Some BAttempts
  ∧ first_match dispatch_order payload_fixed = Some BSql
  ∧ (∃ st', handle_data example_Number_toString payload_fixed
              (example_ask [frame_sql]) = Some st'
       ∧ get (result st') "sql" = str "SELECT 1 FIX"
       ∧ get (result st') "metadata" = VUndef)
  ∧ get (result (example_ask [frame_sql ++ frame_fixed])) "sql"
    = str "SELECT 1 FIX"
  ∧ get (get (result (example_ask [frame_sql ++ frame_fixed])) "metadata")
      "auto_fixed" = VUndef.
Proof.
  destruct (sql_test_shadows_attempts example_Number_toString payload_fixed
              (example_ask [frame_sql]))
    as (Hb & (st' & H1 & H2 & H3 & _) & _).
  - reflexivity.
  - reflexivity.
  - reflexivity.
  - reflexivity.
  - right. exists (spread (result (example_ask [frame_sql]))).
    vm_compute; reflexivity.
  - split; [vm_compute; reflexivity|]. split; [exact Hb|]. split.
    + exists st'. split; [exact H1|]. split; [exact H2|].
      rewrite H3 by discriminate. vm_compute; reflexivity.
    + split; vm_compute; reflexivity.
Defined.

(** C2 (witness). The payload {query_id:'q-1'} after an sql frame. *)
Lemma complete_result_replaces_witness :
  ∃ st', handle_data example_Number_toString payload_query_id
           (example_ask [frame_sql]) = Some st'
    ∧ result st' = payload_query_id
    ∧ isStreaming st' = false.
Proof.
  destruct (complete_result_replaces example_Number_toString payload_query_id
              (example_ask [frame_sql]))
    as (st' & H1 & H2 & _ & H3 & _); [reflexivity|].
  exists st'. repeat split; assumption.
Defined.

(** C2 (counterexample). After the frame {sql:'SELECT 1'} the record has
    that sql; after the frame {query_id:'q-1'} that follows it, the record
    has the query id and no sql: the property the snapshot omits is not
    retained. *)
Lemma final_result_counterexample :
  get (result (example_ask [frame_sql])) "sql" = str "SELECT 1"
  ∧ get (result (example_ask [frame_sql ++ frame_query_id])) "query_id"
    = str "q-1"
  ∧ get (result (example_ask [frame_sql ++ frame_query_id])) "sql" = VUndef.
Proof. repeat apply conj; vm_compute; reflexivity. Qed.



(** C4 (witness). A body of one sql frame that ends cleanly. *)
Lemma clean_end_keeps_partial_witness :
  error (example_ask [frame_sql]) = VNull
  ∧ loading (example_ask [frame_sql]) = false.
Proof.
  destruct (clean_end_keeps_partial example_parse example_Number_toString
              ready 200 [frame_sql]) as (H1 & H2 & _).
  - reflexivity.
  - apply (bool_decide_unpack _). vm_compute. exact I.
  - split; assumption.
Defined.

(** C4 (counterexample). A body with the one frame {sql:'SELECT 1'} that
    then ends cleanly leaves the ask with no error, nothing shown as an
    error, and the partial record kept. *)
Lemma silent_end_counterexample :
  error (example_ask [frame_sql]) = VNull
  ∧ shows_error (example_ask [frame_sql]) = false
  ∧ get (result (example_ask [frame_sql])) "sql" = str "SELECT 1".
Proof. repeat apply conj; vm_compute; reflexivity. Qed.

(** C5 (witness). One frame whose payload holds a two-byte character, read
    in one chunk, and read in three chunks cut inside the character and
    between the two line feeds. *)
Lemma chunking_independent_witness :
  example_ask [jb "data:{'chunk':'caf" ++ [xc3; xa9] ++ jb "'}" ++ [x0a; x0a]]
  = example_ask [jb "data:{'chunk':'caf" ++ [xc3]; [xa9] ++ jb "'}" ++ [x0a];
                 [x0a]]
  ∧ streamingReasoning
      (example_ask [jb "data:{'chunk':'caf" ++ [xc3]; [xa9] ++ jb "'}" ++ [x0a];
                    [x0a]])
    = VStr (lit "caf" ++ [233]).
Proof.
  split; [|reflexivity].
  apply (chunking_independent example_parse example_Number_toString
           ready ready true 200 ReadDone).
  reflexivity.
Defined.

(** C6 (witness). The payload {row_count:10, execution_time_ms:12.4} after
    an sql frame. *)
Lemma row_count_effect_witness :
  ∃ st', handle_data example_Number_toString payload_row_count
           (example_ask [frame_sql]) = Some st'
    ∧ result st' = result (example_ask [frame_sql])
    ∧ currentStep st'
      = VStr (mark_ok ++ lit " Query executed successfully! 10 rows returned").
Proof.
  pose proof (row_count_effect example_Number_toString payload_row_count
                (example_ask [frame_sql]) eq_refl) as H.
  change (row_count_notice example_Number_toString payload_row_count)
    with (Some (mark_ok ++ lit " Query executed successfully! 10 rows returned"))
    in H.
  destruct H as (st' & H1 & H2 & _ & _ & _ & H3 & _).
  exists st'. repeat split; [assumption | | assumption].
  apply H3. reflexivity.
Defined.

(** C6 (counterexample). After the one frame
    {row_count:10, execution_time_ms:12.4} the record is still unset: it has
    no execution summary, while the current step shows the notice. *)
Lemma execution_summary_counterexample :
  result (example_ask [frame_row_count]) = VNull
  ∧ get (result (example_ask [frame_row_count])) "execution_result" = VUndef
  ∧ currentStep (example_ask [frame_row_count])
    = VStr (mark_ok ++ lit " Query executed successfully! 10 rows returned").
Proof. repeat apply conj; vm_compute; reflexivity. Qed.

(** C7 (witness). The chunks 'A' and 'B', then the reasoning 'C', from the
    start of an ask. *)
Lemma reasoning_accumulates_witness :
  ∃ s1 s2 s3,
    handle_data example_Number_toString (obj [("chunk"%string, str "A")])
      (ask_started ready) = Some s1
    ∧ handle_data example_Number_toString (obj [("chunk"%string, str "B")]) s1
      = Some s2
    ∧ handle_data example_Number_toString (obj [("reasoning"%string, str "C")]) s2
      = Some s3
    ∧ streamingReasoning s2 = str "AB"
    ∧ streamingReasoning s3 = str "C".
Proof.
  destruct (reasoning_accumulates example_Number_toString
              (lit "A") (lit "B") (lit "C") (ask_started ready))
    as (s1 & s2 & s3 & H1 & H2 & H3 & _ & H4 & H5);
    [discriminate | discriminate | discriminate | reflexivity |].
  exists s1, s2, s3. repeat split; assumption.
Defined.

(** C8 (witness). After one sql frame the record has no question: no
    request, nothing changed. *)
Lemma save_guard_witness :
  saveToKnowledgeBase example_Number_toString example_baseUrl
    (example_ask [frame_sql]) PostResolved
  = ([], example_ask [frame_sql]).
Proof.
  destruct (save_guard example_parse example_Number_toString example_baseUrl
              (example_ask [frame_sql]) PostResolved) as (H & _ & _).
  apply H. reflexivity.
Defined.

(** C8 (counterexample). After a complete result with a question and a
    successful execution, an sql frame and an error report, the ask has
    failed (the error is set and shown) while the Save to KB button is
    shown, and saveToKnowledgeBase issues its request. And after a complete
    result without a question and an sql frame the button is shown as well,
    and saveToKnowledgeBase returns with nothing changed: no notice tells of
    a failed precondition. *)
Lemma save_counterexample :
  shows_error (example_ask [frame_complete ++ frame_sql ++ frame_error]) = true
  ∧ shows_save_button
      (example_ask [frame_complete ++ frame_sql ++ frame_error]) = true
  ∧ length (saveToKnowledgeBase example_Number_toString example_baseUrl
              (example_ask [frame_complete ++ frame_sql ++ frame_error])
              PostResolved).1 = 1%nat
  ∧ shows_save_button
      (example_ask [frame_complete_no_question ++ frame_sql]) = true
  ∧ saveToKnowledgeBase example_Number_toString example_baseUrl
      (example_ask [frame_complete_no_question ++ frame_sql]) PostResolved
    = ([], example_ask [frame_complete_no_question ++ frame_sql])
  ∧ kbMessage (example_ask [frame_complete_no_question ++ frame_sql]) = VNull.
Proof. repeat apply conj; vm_compute; reflexivity. Qed.

(** C9 (witness). The end state of an ask whose body has an error report
    and then an sql frame; and an ask with a blank question, made from the
    state that an ask whose body was one step frame has left. *)
Lemma error_excludes_step_indicator_witness :
  shows_error (example_ask [frame_error ++ frame_sql])
  && shows_current_step (example_ask [frame_error ++ frame_sql]) = false
  ∧ shows_error
      (handleAsk example_parse example_Number_toString
         (setQuestion (lit "   ") (example_ask [frame_step]))
         (ok_body [frame_sql])) = true
  ∧ shows_current_step
      (handleAsk example_parse example_Number_toString
         (setQuestion (lit "   ") (example_ask [frame_step]))
         (ok_body [frame_sql]))
    = shows_current_step (setQuestion (lit "   ") (example_ask [frame_step])).
Proof.
  destruct (error_excludes_step_indicator example_parse
              example_Number_toString ready
              (ok_body [frame_error ++ frame_sql]) [] None [])
    as (_ & H & _).
  destruct (error_excludes_step_indicator example_parse
              example_Number_toString
              (setQuestion (lit "   ") (example_ask [frame_step]))
              (ok_body [frame_sql]) [] None []) as (_ & _ & _ & H').
  split; [apply H; reflexivity|].
  destruct H' as (H1 & H2 & _); [vm_compute; reflexivity|].
  split; [exact H1 | exact H2].
Defined.

(** C9 (counterexample). After an sql frame and an error report the error
    message is shown and the results panel is shown with the populated
    record left from before the error. And after an ask whose body was one
    step frame and ended there, an ask with a blank question shows the
    validation message together with the step indicator of the earlier
    ask. *)
Lemma residual_result_counterexample :
  shows_error (example_ask [frame_sql ++ frame_error]) = true
  ∧ shows_results (example_ask [frame_sql ++ frame_error]) = true
  ∧ get (result (example_ask [frame_sql ++ frame_error])) "sql"
    = str "SELECT 1"
  ∧ shows_error
      (handleAsk example_parse example_Number_toString
         (setQuestion (lit "   ") (example_ask [frame_step]))
         (ok_body [frame_sql])) = true
  ∧ shows_current_step
      (handleAsk example_parse example_Number_toString
         (setQuestion (lit "   ") (example_ask [frame_step]))
         (ok_body [frame_sql])) = true.
Proof. repeat apply conj; vm_compute; reflexivity. Qed.

(** C10 (witness). The same data frame under two different event names,
    the second body with one more event line at its end. *)
Lemma event_names_irrelevant_witness :
  example_ask [jb "event: sql" ++ [x0a] ++ frame_sql]
  = example_ask [jb "event: complete" ++ [x0a] ++ frame_sql
                 ++ jb "event: done" ++ [x0a]].
Proof.
  apply (event_names_irrelevant example_parse example_Number_toString
           ready true 200 ReadDone).
  reflexivity.
Defined.

(** ** The caller and the table selection *)

Lemma app_run_snoc (actions : list app_action) (a : app_action) :
  app_run (actions ++ [a]) = app_step (app_run actions) a.
Proof. unfold app_run. by rewrite fold_left_app. Qed.

Lemma last_selected_snoc (actions : list app_action) (a : app_action) :
  last_selected (actions ++ [a]) =
  match a with DatabaseSelect id => Some id | _ => last_selected actions end.
Proof. unfold last_selected. by rewrite fold_left_app. Qed.

(** X20. Whatever the user does, the main area of the application renders
    exactly one of its five views, the active one. The schema view is never
    entered from the menu, only through handleDatabaseSelect: when it is
    the active view a database has been selected, and the selected database
    is always the one the last selection passed. *)
Theorem app_renders_one_view (actions : list app_action) :
  rendered_views (app_run actions) = [activeView (app_run actions)]
  ∧ selectedDatabase (app_run actions) = default VNull (last_selected actions)
  ∧ (activeView (app_run actions) = lit "schema" →
     is_Some (last_selected actions)).
Proof.
  assert (activeView (app_run actions) ∈ app_views
          ∧ selectedDatabase (app_run actions)
            = default VNull (last_selected actions)
          ∧ (activeView (app_run actions) = lit "schema" →
             is_Some (last_selected actions))) as (Hin & Hsel & Hschema).
  { induction actions as [|a actions IH] using rev_ind.
    - split; [|split]; [|done|done]. apply list_elem_of_here.
    - destruct IH as (Hin & Hsel & Hschema).
      rewrite app_run_snoc, last_selected_snoc.
      destruct a as [i|id|cfg]; cbn [app_step activeView selectedDatabase].
      + split; [|split]; [|done|by destruct i].
        unfold app_views. destruct i; cbn [item_id]; set_solver.
      + split; [|split]; [|done|by eauto]. unfold app_views. set_solver.
      + done. }
  split; [|done].
  unfold rendered_views, app_views in *.
  repeat (apply elem_of_cons in Hin as [->|Hin]; [reflexivity|]).
  by apply elem_of_nil in Hin.
Qed.

Lemma toggle_in (tableName : list N) (prev : list (list N)) :
  tableName ∈ prev →
  toggleTableSelection tableName prev = filter (λ t, t ≠ tableName) prev.
Proof. intros H. unfold toggleTableSelection. by rewrite bool_decide_eq_true_2. Qed.

Lemma toggle_out (tableName : list N) (prev : list (list N)) :
  tableName ∉ prev → toggleTableSelection tableName prev = prev ++ [tableName].
Proof. intros H. unfold toggleTableSelection. by rewrite bool_decide_eq_false_2. Qed.

(** X21. Ticking a table's box flips that table and no other: after
    toggleTableSelection the table is selected exactly when it was not
    before, every other table is selected exactly when it was before, and
    a selection without repeats stays without repeats. *)
Theorem toggleTableSelection_flips (tableName : list N)
    (prev : list (list N)) :
  (tableName ∈ toggleTableSelection tableName prev ↔ tableName ∉ prev)
  ∧ (∀ t, t ≠ tableName →
          (t ∈ toggleTableSelection tableName prev ↔ t ∈ prev))
  ∧ (NoDup prev → NoDup (toggleTableSelection tableName prev)).
Proof.
  destruct (decide (tableName ∈ prev)) as [Hin|Hout].
  - rewrite toggle_in by done. split; [|split].
    + rewrite list_elem_of_filter. naive_solver.
    + intros t Ht. rewrite list_elem_of_filter. naive_solver.
    + apply NoDup_filter.
  - rewrite toggle_out by done. split; [|split].
    + rewrite elem_of_app, list_elem_of_singleton. naive_solver.
    + intros t Ht. rewrite elem_of_app, list_elem_of_singleton. naive_solver.
    + intros Hnd. apply NoDup_app. split; [done|]. split.
      * intros x Hx. rewrite list_elem_of_singleton. by intros ->.
      * apply NoDup_singleton.
Qed.

(** X22. For discovered tables with distinct names and a selection without
    repeats made of their names, the Select All box is ticked exactly when
    every discovered table is selected, and toggleAllTables then clears the
    selection; otherwise it selects every discovered table, in their
    order. *)
Theorem select_all_means_all (selectedTables : list (list N))
    (discoveredTables : list table) :
  NoDup (table_name <$> discoveredTables) →
  NoDup selectedTables →
  (∀ t, t ∈ selectedTables → t ∈ table_name <$> discoveredTables) →
  (select_all_checked selectedTables discoveredTables = true ↔
   ∀ t, t ∈ discoveredTables → table_name t ∈ selectedTables)
  ∧ toggleAllTables selectedTables discoveredTables
    = (if select_all_checked selectedTables discoveredTables then []
       else table_name <$> discoveredTables).
Proof.
  intros Hnames Hnd Hsub. split; [|done].
  unfold select_all_checked. rewrite bool_decide_eq_true. split.
  - intros Hlen t Ht.
    assert (selectedTables ≡ₚ table_name <$> discoveredTables) as Hperm.
    { apply submseteq_length_Permutation.
      - by apply NoDup_submseteq.
      - by rewrite length_fmap, Hlen. }
    rewrite Hperm. by apply list_elem_of_fmap_2.
  - intros Hall. rewrite <- (length_fmap table_name discoveredTables).
    apply Permutation_length, NoDup_Permutation; [done..|].
    intros name. split; [apply Hsub|].
    intros (t & -> & Ht)%list_elem_of_fmap. by apply Hall.
Qed.

(** ** Instances of the further properties *)

(** X1 (witness). A question of three blanks, with a body that would carry
    an sql frame: only the validation message is set. *)
Lemma blank_input_rejected_witness :
  handleAsk example_parse example_Number_toString blank_question
    (ok_body [frame_sql])
  = setError (VStr (lit "Please enter both a question and select a database"))
      blank_question.
Proof.
  apply (blank_input_rejected example_parse example_Number_toString
           blank_question (ok_body [frame_sql])).
  left. reflexivity.
Defined.

(** X2 (witness). A rejected fetch on the example component: the error has
    no response, so its message is reported. *)
Lemma transport_failure_reported_witness :
  error (handleAsk example_parse example_Number_toString ready
           (FetchRejected failed_to_fetch)) = str "Failed to fetch"
  ∧ isStreaming (handleAsk example_parse example_Number_toString ready
                   (FetchRejected failed_to_fetch)) = false
  ∧ loading (handleAsk example_parse example_Number_toString ready
               (FetchRejected failed_to_fetch)) = false.
Proof.
  destruct (transport_failure_reported example_parse example_Number_toString
              ready (FetchRejected failed_to_fetch))
    as (_ & H1 & H2 & H3); [reflexivity | reflexivity |].
  split; [rewrite H3; reflexivity|]. split; [exact H1 | exact H2].
Defined.

(** X3 (witness). A response that is not ok whose body would carry a
    complete result: the record stays unset. *)
Lemma failed_response_body_unread_witness :
  result (handleAsk example_parse example_Number_toString ready
            (FetchResponse false 200 [frame_complete] ReadDone)) = VNull
  ∧ error (handleAsk example_parse example_Number_toString ready
             (FetchResponse false 200 [frame_complete] ReadDone))
    = VStr (lit "HTTP error! status: " ++ example_Number_toString 200).
Proof.
  destruct (failed_response_body_unread example_parse example_Number_toString
              ready 200 [frame_complete] ReadDone failed_to_fetch)
    as (_ & H1 & H2 & _); [reflexivity|].
  split; [exact H1 | exact H2].
Defined.

(** X4 (witness). The same arrivals after the fresh component and after
    the component as an ask has left it, with an ask before still reading:
    both end in the same state. The error report of the earlier ask, which
    arrives after the new ask has started, is shown in the new ask, next to
    the sql of the new ask. *)
Lemma ask_starts_clean_witness :
  ask_during example_parse example_Number_toString (Some new_loop) ready
    late_error
  = ask_during example_parse example_Number_toString (Some new_loop)
      (example_ask [frame_sql]) late_error
  ∧ error (ask_during example_parse example_Number_toString (Some new_loop)
             ready late_error) = str "syntax error"
  ∧ get (result (ask_during example_parse example_Number_toString
                   (Some new_loop) ready late_error)) "sql" = str "SELECT 1".
Proof.
  destruct (ask_starts_clean example_parse example_Number_toString ready
              (example_ask [frame_sql]) (Some new_loop) late_error
              (ok_body [])) as (H & _ & _);
    try (vm_compute; reflexivity).
  split; [exact H|]. split; vm_compute; reflexivity.
Defined.

(** X8 (witness). An explanation frame after an sql frame: the record gets
    the explanation and keeps the sql. *)
Lemma merging_frames_keep_rest_witness :
  ∃ st', handle_data example_Number_toString payload_explanation
           (example_ask [frame_sql]) = Some st'
    ∧ get (result st') "sql_explanation"
      = get payload_explanation (branch_field BExplanation)
    ∧ get (result st') "sql" = get (result (example_ask [frame_sql])) "sql".
Proof.
  destruct (merging_frames_keep_rest example_Number_toString BExplanation
              "sql_explanation" payload_explanation (example_ask [frame_sql]))
    as (st' & H1 & H2 & H3 & _).
  - vm_compute; reflexivity.
  - reflexivity.
  - right. exists (spread (result (example_ask [frame_sql]))).
    vm_compute; reflexivity.
  - exists st'. split; [exact H1|]. split; [exact H2|].
    apply H3. discriminate.
Defined.

(** X9 (witness). The payload {query_id:'q-1'} after an sql frame: the
    record it leaves cannot be saved. *)
Lemma complete_result_lacks_streamed_fields_witness :
  ∃ st', handle_data example_Number_toString payload_query_id
           (example_ask [frame_sql]) = Some st'
    ∧ can_save st' = false ∧ shows_save_button st' = false.
Proof.
  destruct (complete_result_lacks_streamed_fields example_Number_toString
              payload_query_id (example_ask [frame_sql]))
    as (_ & _ & st' & H1 & _ & H2 & H3); [vm_compute; reflexivity|].
  exists st'. split; [exact H1|]. split; [exact H2 | exact H3].
Defined.

(** X10 (witness). After an sql line, while streaming: no Save to KB
    button. *)
Lemma streaming_record_keys_witness :
  shows_save_button
    (process_lines example_parse example_Number_toString
       (VNull, ask_started ready) [jq "data:{'sql':'SELECT 1'}"]).2 = false.
Proof.
  destruct (streaming_record_keys example_parse example_Number_toString
              VNull ready [jq "data:{'sql':'SELECT 1'}"])
    as (_ & _ & H); [vm_compute; reflexivity|].
  exact H.
Defined.

(** X12 (witness). An sql frame, then an error report whose line feed never
    arrives: the ask ends as after the sql frame alone. *)
Lemma unterminated_tail_dropped_witness :
  handleAsk example_parse example_Number_toString ready
    (FetchResponse true 200 ([frame_sql] ++ [jb "data:{'error':'syntax error'}"])
       ReadDone)
  = handleAsk example_parse example_Number_toString ready
      (FetchResponse true 200 [frame_sql] ReadDone).
Proof.
  destruct (unterminated_tail_dropped example_parse example_Number_toString
              ready 200 [frame_sql] (jb "data:{'error':'syntax error'}")
              ReadDone) as [H _].
  - intros Hin. apply list_elem_of_In in Hin. vm_compute in Hin.
    repeat (destruct Hin as [Hin|Hin]; [discriminate Hin|]). exact Hin.
  - exact H.
Defined.

(** X14 (witness). The bytes of the text data: {} *)
Lemma decode_ascii_witness :
  (decode new_TextDecoder (list_byte_of_string "data: {}")).2
  = Byte.to_N <$> list_byte_of_string "data: {}".
Proof.
  destruct (decode_ascii new_TextDecoder (list_byte_of_string "data: {}"))
    as [H _].
  - reflexivity.
  - apply (bool_decide_unpack _). vm_compute. exact I.
  - exact H.
Defined.

(** X15 (witness). Saving after a complete result and an sql frame, with a
    post that resolves. *)
Lemma save_reports_outcome_witness :
  savingToKB (saveToKnowledgeBase example_Number_toString example_baseUrl
                (example_ask [frame_complete ++ frame_sql]) PostResolved).2
  = false
  ∧ get (kbMessage (saveToKnowledgeBase example_Number_toString example_baseUrl
                      (example_ask [frame_complete ++ frame_sql])
                      PostResolved).2) "type"
    = VStr (lit "success").
Proof.
  destruct (save_reports_outcome example_Number_toString example_baseUrl
              (example_ask [frame_complete ++ frame_sql]) PostResolved)
    as (H1 & H2 & _); [vm_compute; reflexivity|].
  split; [exact H1 | apply H2; reflexivity].
Defined.

(** X17 (witness). The sql payload applied to the record it has already
    written. *)
Lemma replacing_frames_idempotent_witness :
  handle_data example_Number_toString payload_sql
    (setResult payload_sql ready)
  = Some (setResult payload_sql ready).
Proof.
  apply (replacing_frames_idempotent example_Number_toString BSql payload_sql
           ready (setResult payload_sql ready)).
  - vm_compute; reflexivity.
  - discriminate.
  - vm_compute; reflexivity.
Defined.

(** X18 (witness). An sql payload and an explanation payload, in both
    orders. *)
Lemma merging_frames_commute_witness :
  ∃ s1 s2 s12 s21,
    handle_data example_Number_toString payload_sql ready = Some s1
    ∧ handle_data example_Number_toString payload_explanation s1 = Some s12
    ∧ handle_data example_Number_toString payload_explanation ready = Some s2
    ∧ handle_data example_Number_toString payload_sql s2 = Some s21
    ∧ s12 = s21.
Proof.
  apply (merging_frames_commute example_Number_toString BSql BExplanation
           "sql" "sql_explanation" payload_sql payload_explanation ready).
  - vm_compute; reflexivity.
  - reflexivity.
  - vm_compute; reflexivity.
  - reflexivity.
  - discriminate.
Defined.


(** X22 (witness). Both of two discovered tables selected, in the other
    order: the box is checked, and the toggle clears the selection. *)
Lemma select_all_means_all_witness :
  (select_all_checked [lit "orders"; lit "users"] users_orders = true
   ↔ ∀ t, t ∈ users_orders → table_name t ∈ [lit "orders"; lit "users"])
  ∧ toggleAllTables [lit "orders"; lit "users"] users_orders
    = if select_all_checked [lit "orders"; lit "users"] users_orders
      then [] else table_name <$> users_orders.
Proof.
  apply (select_all_means_all [lit "orders"; lit "users"] users_orders).
  - apply (bool_decide_unpack _). vm_compute. exact I.
  - apply (bool_decide_unpack _). vm_compute. exact I.
  - apply Forall_forall, (bool_decide_unpack _). vm_compute. exact I.
Defined.
